(** * Pour manager and rover motor-board link: a shallow embedding

    Two programs of the repository are modelled here.

    - [pour_manager.ino]: the irrigation sketch (moisture reading, the
      dryness predicate, the wrap-around time comparison and the three-state
      cycle of [loop]).
    - [rovers/rover-4-overseer/Motors.cpp]: the command link to the motor
      board ([WaitForReadySignal], [SendCommand], [DetectPing_Ms],
      [HardwareMotorsTest]).

    Machine integers are [Z] with the wrap-around written out, the [float]
    of the sketch is IEEE binary32 from [SpecFloat], the serial line is a
    record holding the clock, the bytes still to arrive and the bytes
    written. *)

From Stdlib Require Import ZArith List Bool Lia String Ascii.
From Stdlib Require Import DecimalString.
From Stdlib Require Import Floats.SpecFloat.
From Stdlib Require Import Reals Lra.
Import ListNotations.

Local Open Scope Z_scope.

(** ** Machine integers *)

Definition u8 (x : Z) : Z := x mod 2 ^ 8.
Definition u16 (x : Z) : Z := x mod 2 ^ 16.
Definition u32 (x : Z) : Z := x mod 2 ^ 32.

(** ** binary32, the [float] of the sketch *)

Module F32.

Definition prec : Z := 24.
Definition emax : Z := 128.

(** [(float) n] for an integer [n]: rounded to nearest, ties to even. *)
Definition of_Z (n : Z) : spec_float := binary_normalize prec emax n 0 false.

Definition mul : spec_float -> spec_float -> spec_float := SFmul prec emax.
Definition div : spec_float -> spec_float -> spec_float := SFdiv prec emax.

(** [(uint32_t) x]: the fractional part is discarded; the conversion is
    undefined ([None]) when the truncated value does not fit. *)
Definition to_u32 (x : spec_float) : option Z :=
  match x with
  | S754_zero _ => Some 0
  | S754_finite s m e =>
      let t := Z.shiftl (Zpos m) e in
      if s then (if t =? 0 then Some 0 else None)
      else if t <? 2 ^ 32 then Some t else None
  | S754_infinity _ => None
  | S754_nan => None
  end.


End F32.

(** ** pour_manager.ino *)

Module PourManager.

Definition MEASURER_RANGE_LOW : Z := 315.
Definition MEASURER_RANGE_HIGH : Z := 318.
Definition MEASURER_ABS_LOW : Z := 240.
Definition MEASURER_ABS_HIGH : Z := 650.

Definition MEASURER_HIGH_MEANS_DRY : bool := true.

Definition MAX_MOTOR_ON_TIME_S : Z := 120.
Definition GET_HUMIDITY_TICK_S : Z := 10.
Definition IDLE_DURATION_S : Z := 60.
Definition PRE_POUR_DURATION_S : Z := 180.
Definition BASE_POUR_DURATION_S : Z := 20.
Definition POST_POUR_DURATION_S : Z := 900.
Definition DESIRED_POUR_CYCLE_S : Z := 86400.

(** [is_line_problem], on the sample [raw] that its own call of
    [get_raw_value] returns.  The sample is an [int16_t] and the bounds are
    [uint16_t]: with the 16-bit [int] of the board both sides are compared
    as unsigned 16-bit values. *)
Definition is_line_problem (raw : Z) : bool :=
  (u16 raw <=? MEASURER_ABS_LOW) || (MEASURER_ABS_HIGH <=? u16 raw).


(** [is_low_rh], with the polarity constant [MEASURER_HIGH_MEANS_DRY] as an
    argument. *)
Definition is_low_rh (high_means_dry : bool) (cur_hum : Z) : bool :=
  negb (cur_hum =? -1) &&
  ((high_means_dry && (MEASURER_RANGE_HIGH <? u16 cur_hum)) ||
   (negb high_means_dry && (u16 cur_hum <? MEASURER_RANGE_LOW))).

(** [ui32_gte], on two [uint32_t] values. *)
Definition ui32_gte (a b : Z) : bool :=
  (b <=? a) || ((a <? b) && (0x40000000 <=? u32 (b - a))).

Definition STATE_IDLE : Z := 0.
Definition STATE_PRE_POUR_STAGING : Z := 1.
Definition STATE_POURING : Z := 2.

(** The globals of the sketch.  [motor] is the relay ([true] is on) and
    [serial] the lines printed so far, oldest first. *)
Record Globals := mkGlobals {
  state : Z;
  next_state_update_time : Z;
  last_motor_off_moment : Z;
  pour_duration_ms : Z;
  motor : bool;
  serial : list string
}.

(** Modelled from the spec: the relay class [c_switch] of [me_switch.h] is
    not in the sources; it is the motor actuator of the spec (section 6), a
    boolean that [switch_on] sets, [switch_off] clears and [is_on] /
    [is_off] read. *)
Definition is_on (g : Globals) : bool := motor g.

(** Modelled from the spec: [c_switch::is_off], the negation of [is_on]. *)
Definition is_off (g : Globals) : bool := negb (motor g).

(** Modelled from the spec: [c_switch::switch_on], the actuator's
    [turn_on]. *)
Definition switch_on (g : Globals) : Globals :=
  mkGlobals (state g) (next_state_update_time g) (last_motor_off_moment g)
            (pour_duration_ms g) true (serial g).

(** Modelled from the spec: [c_switch::switch_off], the actuator's
    [turn_off]. *)
Definition switch_off (g : Globals) : Globals :=
  mkGlobals (state g) (next_state_update_time g) (last_motor_off_moment g)
            (pour_duration_ms g) false (serial g).

(** [Serial.println] *)
Definition println (line : string) (g : Globals) : Globals :=
  mkGlobals (state g) (next_state_update_time g) (last_motor_off_moment g)
            (pour_duration_ms g) (motor g) (serial g ++ [line]).

Definition motor_on (g : Globals) : Globals :=
  if is_off g then println "Motor ON." (switch_on g) else g.

Definition motor_off (g : Globals) : Globals :=
  if is_on g then println "Motor OFF." (switch_off g) else g.

(** [pour_duration_ms * ((float)(DESIRED_POUR_CYCLE_S * 1000) / observed)],
    stored back into a [uint32_t]: both integers are converted to binary32,
    the quotient and the product are rounded to binary32, and the product
    is truncated. *)
Definition rescale (pour observed : Z) : option Z :=
  F32.to_u32
    (F32.mul (F32.of_Z pour)
             (F32.div (F32.of_Z (u32 (DESIRED_POUR_CYCLE_S * 1000)))
                      (F32.of_Z observed))).

Definition set_schedule (st next : Z) (g : Globals) : Globals :=
  mkGlobals st next (last_motor_off_moment g) (pour_duration_ms g)
            (motor g) (serial g).

Definition set_pour_duration (d : Z) (g : Globals) : Globals :=
  mkGlobals (state g) (next_state_update_time g) (last_motor_off_moment g)
            d (motor g) (serial g).

Definition set_last_motor_off_moment (t : Z) (g : Globals) : Globals :=
  mkGlobals (state g) (next_state_update_time g) t (pour_duration_ms g)
            (motor g) (serial g).

(** One pass of [loop].  [cur_time] is what [millis()] returned and
    [cur_hum] what [get_humidity()] returned.  [None] is the undefined
    float-to-integer conversion of the rescaling. *)
Definition loop (cur_time cur_hum : Z) (g : Globals) : option Globals :=
  let is_time_to_update := ui32_gte cur_time (next_state_update_time g) in
  if is_time_to_update then
    if state g =? STATE_IDLE then
      if is_low_rh MEASURER_HIGH_MEANS_DRY cur_hum then
        Some (set_schedule STATE_PRE_POUR_STAGING
                (u32 (cur_time + PRE_POUR_DURATION_S * 1000)) g)
      else
        Some (set_schedule STATE_IDLE
                (u32 (cur_time + IDLE_DURATION_S * 1000)) g)
    else if state g =? STATE_PRE_POUR_STAGING then
      if is_low_rh MEASURER_HIGH_MEANS_DRY cur_hum then
        let g1 := motor_on g in
        if negb (last_motor_off_moment g1 =? 0) then
          match rescale (pour_duration_ms g1)
                        (u32 (cur_time - last_motor_off_moment g1)) with
          | Some d =>
              let g2 := set_pour_duration
                          (Z.min d (MAX_MOTOR_ON_TIME_S * 1000)) g1 in
              Some (set_schedule STATE_POURING
                      (u32 (cur_time + pour_duration_ms g2)) g2)
          | None => None
          end
        else
          Some (set_schedule STATE_POURING
                  (u32 (cur_time + pour_duration_ms g1)) g1)
      else
        Some (set_schedule STATE_IDLE
                (u32 (cur_time + IDLE_DURATION_S * 1000)) g)
    else if state g =? STATE_POURING then
      let g1 := motor_off g in
      let g2 := set_last_motor_off_moment cur_time g1 in
      Some (set_schedule STATE_IDLE
              (u32 (cur_time + POST_POUR_DURATION_S * 1000)) g2)
    else Some g
  else Some g.

(** Consecutive passes of [loop], one per pair of clock value and
    humidity. *)
Fixpoint run (ticks : list (Z * Z)) (g : Globals) : option Globals :=
  match ticks with
  | [] => Some g
  | (cur_time, cur_hum) :: rest =>
      match loop cur_time cur_hum g with
      | Some g' => run rest g'
      | None => None
      end
  end.

(** The globals as the sketch initialises them; [boot] is the value of
    [millis()] at that moment. *)
Definition initial (boot : Z) : Globals :=
  mkGlobals STATE_IDLE boot 0 (u32 (BASE_POUR_DURATION_S * 1000)) false [].

End PourManager.

(** ** rovers/rover-4-overseer/Motors.cpp *)

Module Motors.

(** The serial line to the motor board, the clock and the module's
    static variable.

    - [now] is the time since boot in ms; only [delay] advances it.
    - [rx] holds the bytes the board sends that are not read yet, each with
      the time it arrives at, in the order of the wire: a byte can be read
      once it has arrived and every byte before it has been read.
    - [tx] is everything written to the board so far.
    - [console] is what was printed on the hardware serial. *)
Record Line := mkLine {
  now : Z;
  rx : list (Z * ascii);
  tx : string;
  console : string;
  TimePerCharacter_Ms : Z
}.

Inductive fault : Type :=
| OutOfFuel
| DivisionByZero.

Inductive result (A : Type) : Type :=
| Ok (a : A) (l : Line)
| Crash (f : fault).
Arguments Ok {A} a l.
Arguments Crash {A} f.

Definition M (A : Type) : Type := Line -> result A.

Definition ret {A : Type} (a : A) : M A := fun l => Ok a l.

Definition bind {A B : Type} (m : M A) (k : A -> M B) : M B :=
  fun l => match m l with
           | Ok a l' => k a l'
           | Crash f => Crash f
           end.

Definition crash {A : Type} (f : fault) : M A := fun _ => Crash f.

Notation "x <- m ;; k" := (bind m (fun x => k))
  (at level 61, m at next level, right associativity).
Notation "m ;;; k" := (bind m (fun _ => k))
  (at level 61, right associativity).

(** *** The Arduino primitives *)

Definition millis : M Z := fun l => Ok (u32 (now l)) l.

(** The line [ms] later. *)
Definition advance (ms : Z) (l : Line) : Line :=
  mkLine (now l + ms) (rx l) (tx l) (console l) (TimePerCharacter_Ms l).

(** The line with [q] left to read. *)
Definition with_rx (q : list (Z * ascii)) (l : Line) : Line :=
  mkLine (now l) q (tx l) (console l) (TimePerCharacter_Ms l).

Definition delay (ms : Z) : M unit := fun l => Ok tt (advance ms l).

(** How many bytes at the head of [q] have arrived by [t]. *)
Fixpoint arrived (t : Z) (q : list (Z * ascii)) : Z :=
  match q with
  | (a, _) :: q' => if a <=? t then 1 + arrived t q' else 0
  | [] => 0
  end.

(** [SoftwareSerial_.available()] *)
Definition available : M Z := fun l => Ok (arrived (now l) (rx l)) l.

(** [SoftwareSerial_.read()]: the next byte, or -1 when there is none. *)
Definition read : M Z :=
  fun l => match rx l with
           | (a, b) :: q =>
               if a <=? now l
               then Ok (Z.of_N (N_of_ascii b)) (with_rx q l)
               else Ok (-1) l
           | [] => Ok (-1) l
           end.

(** [SoftwareSerial_.write(Commands)] *)
Definition write (Commands : string) : M unit :=
  fun l => Ok tt (mkLine (now l) (rx l) (tx l ++ Commands) (console l)
                         (TimePerCharacter_Ms l)).

(** [HardwareSerial_.print] *)
Definition print (text : string) : M unit :=
  fun l => Ok tt (mkLine (now l) (rx l) (tx l) (console l ++ text)
                         (TimePerCharacter_Ms l)).

Definition get_TimePerCharacter_Ms : M Z :=
  fun l => Ok (TimePerCharacter_Ms l) l.

Definition Motorboard_PrintHelpMaxTime_Ms : Z := 4000.

(** *** The functions of Motors.cpp *)

Definition GetTimePassed_Ms (StartTime_Ms EndTime_Ms : Z) : M Z :=
  EndTime_Ms <- (if EndTime_Ms =? 0 then millis else ret EndTime_Ms) ;;
  ret (u32 (EndTime_Ms - StartTime_Ms)).

(** What one pass through the body of the [while] of
    [WaitForReadySignal] ends in: a [return], or the next pass with the
    array [Chars] as it then is. *)
Inductive pass : Type :=
| Return (value : bool)
| Again (Chars : ascii * ascii * ascii).

(** An [int] stored into a [char]. *)
Definition char_of_int (v : Z) : ascii := ascii_of_N (Z.to_N (u8 v)).

Definition newline : ascii := "010"%char.
Definition letter_G : ascii := "G"%char.

(** The body of the [while] of [WaitForReadySignal].  [Chars] is
    [(Chars[0], Chars[1], Chars[2])]. *)
Definition WaitForReadySignal_body (Chars : ascii * ascii * ascii) : M pass :=
  let '(Chars0, Chars1, Chars2) := Chars in
  n <- available ;;
  if negb (n =? 0) then
    let Chars2 := Chars1 in
    let Chars1 := Chars0 in
    b <- read ;;
    let Chars0 := char_of_int b in
    if Ascii.eqb Chars2 newline && Ascii.eqb Chars1 letter_G
       && Ascii.eqb Chars0 newline
    then
      d <- get_TimePerCharacter_Ms ;;
      delay d ;;;
      n' <- available ;;
      if n' =? 0 then ret (Return true)
      else
        d <- get_TimePerCharacter_Ms ;;
        delay d ;;;
        ret (Again (Chars0, Chars1, Chars2))
    else
      d <- get_TimePerCharacter_Ms ;;
      delay d ;;;
      ret (Again (Chars0, Chars1, Chars2))
  else
    d <- get_TimePerCharacter_Ms ;;
    delay d ;;;
    ret (Again (Chars0, Chars1, Chars2)).

(** The test of [WaitForReadySignal] on [Chars]. *)
Definition is_ready (Chars : ascii * ascii * ascii) : bool :=
  let '(Chars0, Chars1, Chars2) := Chars in
  Ascii.eqb Chars2 newline && Ascii.eqb Chars1 letter_G
  && Ascii.eqb Chars0 newline.

(** [Chars] after the bytes [h] were read, the latest first. *)
Definition window (h : list ascii) : ascii * ascii * ascii :=
  (nth 0 h zero, nth 1 h zero, nth 2 h zero).

(** The ready signal, as it comes over the wire. *)
Definition sentinel : list ascii := [newline; letter_G; newline].

(** The [while] of [WaitForReadySignal], at most [fuel] passes. *)
Fixpoint WaitForReadySignal_loop (fuel : nat) (Timeout_Ms StartTime_Ms : Z)
         (Chars : ascii * ascii * ascii) : M bool :=
  match fuel with
  | O => crash OutOfFuel
  | S fuel' =>
      passed <- GetTimePassed_Ms StartTime_Ms 0 ;;
      if passed <? Timeout_Ms then
        p <- WaitForReadySignal_body Chars ;;
        match p with
        | Return value => ret value
        | Again Chars' =>
            WaitForReadySignal_loop fuel' Timeout_Ms StartTime_Ms Chars'
        end
      else ret false
  end.

(** [WaitForReadySignal].  With a per-character delay of at least 1 ms
    every pass advances the clock by at least 1 ms, so no more than
    [Timeout_Ms] passes start before the time is up. *)
Definition WaitForReadySignal (Timeout_Ms : Z) : M bool :=
  StartTime_Ms <- millis ;;
  WaitForReadySignal_loop (S (Z.to_nat Timeout_Ms)) Timeout_Ms StartTime_Ms
                          (zero, zero, zero).

Definition SendCommand (Commands : string) (Timeout_Ms : Z) : M bool :=
  n <- available ;;
  gave_up <- (if negb (n =? 0) then
                ready <- WaitForReadySignal Motorboard_PrintHelpMaxTime_Ms ;;
                ret (negb ready)
              else ret false) ;;
  if gave_up then ret false
  else
    write Commands ;;;
    WaitForReadySignal Timeout_Ms.

(** The default of the second argument of [SendCommand] in Motors.h. *)
Definition SendCommand_default_Timeout_Ms : Z := 5000.

Definition SendCommand_Time_Ms (Command : string) : M (bool * Z) :=
  StartTime_Ms <- millis ;;
  SendCommandResult <- SendCommand Command SendCommand_default_Timeout_Ms ;;
  TimeTaken_Ms <- GetTimePassed_Ms StartTime_Ms 0 ;;
  ret (SendCommandResult, TimeTaken_Ms).

Definition TestConnection : M bool :=
  d <- get_TimePerCharacter_Ms ;;
  SendCommand " " (u16 (3 * d + 10)).

Definition decimal (n : Z) : string := NilZero.string_of_int (Z.to_int n).

(** [GenerateCommand]: [snprintf] into 32 bytes keeps at most 31
    characters. *)
Definition GenerateCommand (LeftMotor_Pc RightMotor_Pc Duration_Ms : Z)
  : string :=
  let MaxCommandSize := 32%nat in
  substring 0 (MaxCommandSize - 1)
    ("L " ++ decimal LeftMotor_Pc ++ " R " ++ decimal RightMotor_Pc
     ++ " D " ++ decimal Duration_Ms ++ " ").

(** The [for] of [DetectPing_Ms]; it returns [TimePassed_Ms] and
    [NumMeasurementsDone] as they are when the loop is left. *)
Fixpoint DetectPing_Ms_loop (fuel : nat)
         (NumMeasurements NumMeasurementsDone TimePassed_Ms : Z)
  : M (Z * Z) :=
  match fuel with
  | O => crash OutOfFuel
  | S fuel' =>
      if NumMeasurementsDone <? NumMeasurements then
        sent <- SendCommand_Time_Ms " " ;;
        let '(IsSent, SendCommand_Duration_Ms) := sent in
        if negb IsSent then ret (TimePassed_Ms, NumMeasurementsDone)
        else
          DetectPing_Ms_loop fuel' NumMeasurements
            (u8 (NumMeasurementsDone + 1))
            (u32 (TimePassed_Ms + SendCommand_Duration_Ms))
      else ret (TimePassed_Ms, NumMeasurementsDone)
  end.

(** [DetectPing_Ms].  The quotient of the final [return] does not exist
    when [NumMeasurementsDone] is 0: the division is a crash of the
    model. *)
Definition DetectPing_Ms (NumMeasurements : Z) : M Z :=
  left <- DetectPing_Ms_loop (S (Z.to_nat NumMeasurements))
                             NumMeasurements 0 0 ;;
  let '(TimePassed_Ms, NumMeasurementsDone) := left in
  if NumMeasurementsDone =? 0 then crash DivisionByZero
  else ret (u16 (TimePassed_Ms / NumMeasurementsDone)).

Section SelfTest.

(** libm's [sin] and the floating-point conversions around it are not
    part of the sources.  [MotorPower_Pc Angle] stands for
    [(int8_t)(Amplitude * sin(Angle_Rad))], where [Angle_Rad] is
    [(float) Angle / NumAnglesInCircle * (2 * M_PI)]. *)
Variable MotorPower_Pc : Z -> Z.

Definition TestDuration_Ms : Z := 800.
Definition NumCommands : Z := 12.
Definition CommandDuration_Ms : Z := u16 (TestDuration_Ms / NumCommands).
Definition NumAnglesInCircle : Z := 360.
Definition AngleIncerement : Z := u16 (NumAnglesInCircle / NumCommands).

(** The [while (1)] of [HardwareMotorsTest]. *)
Fixpoint HardwareMotorsTest_loop (fuel : nat) (Angle : Z) : M unit :=
  match fuel with
  | O => crash OutOfFuel
  | S fuel' =>
      let Angle :=
        if NumAnglesInCircle <? Angle then NumAnglesInCircle else Angle in
      SendCommand
        (GenerateCommand (MotorPower_Pc Angle) (MotorPower_Pc Angle)
                         CommandDuration_Ms)
        SendCommand_default_Timeout_Ms ;;;
      if Angle =? NumAnglesInCircle then ret tt
      else HardwareMotorsTest_loop fuel' (u16 (Angle + AngleIncerement))
  end.

(** [HardwareMotorsTest].  The angle grows by [AngleIncerement] in every
    pass and the loop is left at [NumAnglesInCircle], so it makes at most
    [NumAnglesInCircle + 1] passes. *)
Definition HardwareMotorsTest : M unit :=
  print "Motors test.. " ;;;
  HardwareMotorsTest_loop (S (Z.to_nat NumAnglesInCircle)) 0 ;;;
  print ("done." ++ String "013"%char (String "010"%char EmptyString)).

(** The commands for a list of angles, sent one after the other. *)
Fixpoint send_powers (angles : list Z) : M unit :=
  match angles with
  | [] => ret tt
  | Angle :: rest =>
      SendCommand
        (GenerateCommand (MotorPower_Pc Angle) (MotorPower_Pc Angle)
                         CommandDuration_Ms)
        SendCommand_default_Timeout_Ms ;;;
      send_powers rest
  end.

End SelfTest.



(** A line on which the board sends [bytes], all of them arrived at [t],
    and nothing afterwards. *)
Definition line_with (t d : Z) (bytes : string) : Line :=
  mkLine t (map (fun b => (t, b)) (list_ascii_of_string bytes)) "" "" d.

End Motors.

(** ** pour_manager.ino between passes *)

Module PourManagerLog.

Import PourManager.

(** What the sketch has printed after [n] complete pours: "Motor ON." and
    "Motor OFF." in turns. *)
Fixpoint motor_log (n : nat) : list string :=
  match n with
  | O => []
  | S k => "Motor ON."%string :: "Motor OFF."%string :: motor_log k
  end.

(** The globals fit together: the state is one of the three, the motor
    runs in [STATE_POURING] and only there, the pour duration is within the
    ceiling, and the motor lines printed so far take turns. *)
Definition consistent (g : Globals) : Prop :=
  (state g = STATE_IDLE \/ state g = STATE_PRE_POUR_STAGING
   \/ state g = STATE_POURING) /\
  (motor g = true <-> state g = STATE_POURING) /\
  0 <= pour_duration_ms g <= MAX_MOTOR_ON_TIME_S * 1000 /\
  exists n : nat,
    serial g = motor_log n
               ++ (if motor g then ["Motor ON."%string] else []).

End PourManagerLog.

(** ** Motors.cpp: setting the link up *)

Module MotorLink.

Import Motors.

Definition set_TimePerCharacter_Ms (d : Z) : M unit :=
  fun l => Ok tt (mkLine (now l) (rx l) (tx l) (console l) d).

(** [HardwareSerial_.println] *)
Definition println (text : string) : M unit :=
  print (text ++ String "013"%char (String "010"%char EmptyString)).

(** [1000 / (Baud / 10) + 1], stored into the [uint8_t]
    [TimePerCharacter_Ms]; there is no quotient when [Baud / 10] is 0. *)
Definition TimePerCharacter_for (Baud : Z) : option Z :=
  if Baud / 10 =? 0 then None
  else Some (u8 (u32 (1000 / (Baud / 10) + 1))).

(** The [while] of [SetupMotorboardCommunication], at most [fuel]
    passes. *)
Fixpoint connect_loop (fuel : nat) (StartTime_Ms : Z) (IsConnected : bool)
  : M bool :=
  match fuel with
  | O => crash OutOfFuel
  | S fuel' =>
      if negb IsConnected then
        passed <- GetTimePassed_Ms StartTime_Ms 0 ;;
        if passed <? Motorboard_PrintHelpMaxTime_Ms * 10 then
          delay 10 ;;;
          IsConnected <- TestConnection ;;
          connect_loop fuel' StartTime_Ms IsConnected
        else ret IsConnected
      else ret IsConnected
  end.

(** The default of the argument of [DetectPing_Ms] in Motors.h. *)
Definition DetectPing_Ms_default_NumMeasurements : Z := 5.

(** [SetupMotorboardCommunication].  [begin_ok] is what
    [SetupSoftwareSerial] returns, the state of the library's port after
    [begin]; the pins go to the library only.  Every pass of the [while]
    delays 10 ms, so no more than 4000 passes start within the 40000 ms. *)
Definition SetupMotorboardCommunication (begin_ok : bool) (Baud : Z)
  : M bool :=
  print "Motorboard initialization... " ;;;
  if negb begin_ok then
    println "Software serial initialization failed." ;;;
    ret false
  else
    match TimePerCharacter_for Baud with
    | None => crash DivisionByZero
    | Some d =>
        set_TimePerCharacter_Ms d ;;;
        IsConnected <- TestConnection ;;
        IsConnected <-
          (if negb IsConnected then
             StartTime_Ms <- millis ;;
             connect_loop
               (S (Z.to_nat (Motorboard_PrintHelpMaxTime_Ms * 10)))
               StartTime_Ms IsConnected
           else ret IsConnected) ;;
        (if IsConnected then println "yep." else println "nah!") ;;;
        (if IsConnected then
           print "Measuring motorboard ping: " ;;;
           PingValue_Ms <- DetectPing_Ms DetectPing_Ms_default_NumMeasurements ;;
           print (decimal PingValue_Ms ++ " ms"
                  ++ String "010"%char EmptyString)
         else ret tt) ;;;
        ret IsConnected
    end.

(** How many passes [WaitForReadySignal] makes on a line where nothing
    arrives, [e] ms into a timeout of [T] ms with a per-character delay
    [d]. *)
Definition idle_passes (T d e : Z) : Z := Z.max 0 ((T - e + d - 1) / d).

(** [f] holds at the [n] integers from [z] on. *)
Fixpoint all_from (n : nat) (z : Z) (f : Z -> bool) : bool :=
  match n with
  | O => true
  | S k => f z && all_from k (z + 1) f
  end.

(** The thirteen angles of [HardwareMotorsTest]. *)
Definition test_angles : list Z :=
  [0; 30; 60; 90; 120; 150; 180; 210; 240; 270; 300; 330; 360].

End MotorLink.

(** ** humidity_measurer (the source file without a name) *)

Module HumidityMeasurer.

(** A value stored into the 16-bit [int] of the board. *)
Definition s16 (x : Z) : Z := (x + 2 ^ 15) mod 2 ^ 16 - 2 ^ 15.

(** A value stored into a [long]. *)
Definition s32 (x : Z) : Z := (x + 2 ^ 31) mod 2 ^ 32 - 2 ^ 31.

(** The object's fields, as the constructor and the two methods use them.
    The header that declares them is not among the sources, so the fields
    are integers here and every fact below takes [min_value] and
    [max_value] within 0..32767, where each integer type of the board wide
    enough for the constructor's 680 holds the same value. *)
Record humidity_measurer := mk_humidity_measurer {
  sensor_pin : Z;
  power_pin : Z;
  min_value : Z;
  max_value : Z;
  power_off_between_measures : bool;
  high_means_dry : bool;
  is_line_problem : bool
}.

(** The constructor; [A0] is the board's number of that pin. *)
Definition constructed (A0 : Z) : humidity_measurer :=
  mk_humidity_measurer A0 2 0 680 false false false.

(** The board around the measurer: [adc k] is what the [k]-th call of
    [analogRead] returns, [reads] counts the calls so far, [waited] is the
    time spent in [delay] and [power] the levels written to the power pin,
    oldest first. *)
Record Board := mkBoard {
  adc : nat -> Z;
  reads : nat;
  waited : Z;
  power : list bool
}.

Definition analogRead (b : Board) : Z * Board :=
  (adc b (reads b), mkBoard (adc b) (S (reads b)) (waited b) (power b)).

Definition delay (ms : Z) (b : Board) : Board :=
  mkBoard (adc b) (reads b) (waited b + ms) (power b).

Definition digitalWrite (level : bool) (b : Board) : Board :=
  mkBoard (adc b) (reads b) (waited b) (power b ++ [level]).

(** 3.8 as a [float]: 15938355 * 2^-22. *)
Definition measure_period : spec_float := S754_finite false 15938355 (-22).

Definition num_measures : Z := 20.

(** [measure_period * 1000 / num_measures], stored into a [uint16_t]. *)
Definition measure_delay : Z :=
  match F32.to_u32 (F32.div (F32.mul measure_period (F32.of_Z 1000))
                            (F32.of_Z num_measures)) with
  | Some v => u16 v
  | None => 0
  end.

Definition line_problem_threshold : Z := 10.
Definition pre_measures_delay : Z := 50.

(** The [for] of [get_raw_value] with [n] passes to go; it returns
    [sum]. *)
Fixpoint measure (n : nat) (sum : Z) (b : Board) : Z * Board :=
  match n with
  | O => (sum, b)
  | S n' =>
      let '(sample, b1) := analogRead b in
      let raw_value := u16 sample in
      let b2 := delay measure_delay b1 in
      measure n' (u32 (sum + raw_value)) b2
  end.

(** [humidity_measurer::get_raw_value] *)
Definition get_raw_value (m : humidity_measurer) (b : Board)
  : Z * humidity_measurer * Board :=
  let b :=
    if power_off_between_measures m
    then delay pre_measures_delay (digitalWrite true b) else b in
  let '(sum, b) := measure (Z.to_nat num_measures) 0 b in
  let raw_value := u16 (sum / num_measures) in
  let b := if power_off_between_measures m then digitalWrite false b else b in
  let m := mk_humidity_measurer (sensor_pin m) (power_pin m) (min_value m)
             (max_value m) (power_off_between_measures m) (high_means_dry m)
             (raw_value <=? line_problem_threshold) in
  (s16 raw_value, m, b).

(** The macro [constrain] of the Arduino core. *)
Definition constrain (amt low high : Z) : Z :=
  if amt <? low then low else if high <? amt then high else amt.

(** [map] of the Arduino core, on [long]s; there is no quotient when
    [in_max] is [in_min]. *)
Definition map (x in_min in_max out_min out_max : Z) : option Z :=
  if s32 (in_max - in_min) =? 0 then None
  else Some (s32 (Z.quot (s32 (s32 (x - in_min) * s32 (out_max - out_min)))
                         (s32 (in_max - in_min))
                  + out_min)).

(** [humidity_measurer::get_value] *)
Definition get_value (m : humidity_measurer) (b : Board)
  : option (Z * humidity_measurer * Board) :=
  let aligned_low := 0 in
  let aligned_high := 100 in
  let '(result, m, b) := get_raw_value m b in
  let result := constrain result (min_value m) (max_value m) in
  let mapped :=
    if high_means_dry m
    then map result (min_value m) (max_value m) aligned_high aligned_low
    else map result (min_value m) (max_value m) aligned_low aligned_high in
  match mapped with
  | Some value => Some (s16 value, m, b)
  | None => None
  end.

End HumidityMeasurer.

Import PourManager.

(** * Facts about pour_manager.ino *)

Section PourManagerFacts.

Lemma u32_range (x : Z) : 0 <= u32 x < 2 ^ 32.
Proof. unfold u32. apply Z.mod_pos_bound. lia. Qed.

Lemma u32_small (x : Z) : 0 <= x < 2 ^ 32 -> u32 x = x.
Proof. intros H. unfold u32. apply Z.mod_small. exact H. Qed.

(** *** binary32 on integers *)

Lemma digits2_pos_iter_xO (p d : positive) :
  digits2_pos (Pos.iter xO p d) = (digits2_pos p + d)%positive.
Proof.
  induction d as [|d IH] using Pos.peano_ind.
  - cbn. rewrite Pos.add_1_r. reflexivity.
  - rewrite Pos.iter_succ. cbn [digits2_pos]. rewrite IH.
    rewrite Pos.add_succ_r. reflexivity.
Qed.

Lemma Zpos_iter_xO (p d : positive) :
  Zpos (Pos.iter xO p d) = Zpos p * 2 ^ Zpos d.
Proof.
  induction d as [|d IH] using Pos.peano_ind.
  - cbn. lia.
  - rewrite Pos.iter_succ, Pos2Z.inj_xO, IH, Pos2Z.inj_succ.
    rewrite Z.pow_succ_r by lia.
    ring.
Qed.

Lemma digits2_pos_bound (p : positive) :
  2 ^ Zpos (digits2_pos p) <= 2 * Zpos p.
Proof.
  induction p as [p IH|p IH|]; cbn [digits2_pos].
  - rewrite Pos2Z.inj_succ, Z.pow_succ_r by lia. lia.
  - rewrite Pos2Z.inj_succ, Z.pow_succ_r by lia. lia.
  - cbn. lia.
Qed.

(** A mantissa of full width with an exponent in range is left as it is. *)
Lemma binary_round_aux_exact (m : positive) (e : Z) :
  digits2_pos m = 24%positive -> -149 <= e <= 104 ->
  binary_round_aux F32.prec F32.emax false (Zpos m) e loc_Exact
  = S754_finite false m e.
Proof.
  intros Hm He.
  assert (Hshift : fexp F32.prec F32.emax (Zdigits2 (Zpos m) + e) - e = 0).
  { unfold fexp, emin, F32.prec, F32.emax, Zdigits2. rewrite Hm. lia. }
  unfold binary_round_aux, shr_fexp.
  cbn [shr_record_of_loc]. rewrite Hshift.
  cbn [shr shr_m loc_of_shr_record round_nearest_even].
  cbn [shr_record_of_loc]. rewrite Hshift. cbn [shr shr_m].
  replace (e <=? F32.emax - F32.prec) with true; [reflexivity|].
  symmetry. apply Z.leb_le. unfold F32.emax, F32.prec. lia.
Qed.

(** [(float) p] for an integer below 2^24: the mantissa is [p] shifted to
    full width, and nothing is rounded. *)
Lemma of_Z_exact (p d : positive) :
  (digits2_pos p + d = 24)%positive ->
  F32.of_Z (Zpos p) = S754_finite false (Pos.iter xO p d) (Zneg d).
Proof.
  intros Hd.
  assert (Hd' : Zpos (digits2_pos p) + Zpos d = 24) by lia.
  unfold F32.of_Z, binary_normalize, binary_round.
  assert (Hexp : fexp F32.prec F32.emax (Zpos (digits2_pos p) + 0) = Zneg d).
  { unfold fexp, emin, F32.prec, F32.emax. lia. }
  rewrite Hexp. unfold shl_align. cbn [Z.sub Z.opp Z.add].
  apply binary_round_aux_exact.
  - rewrite digits2_pos_iter_xO. exact Hd.
  - lia.
Qed.







(** A pass of [loop] before the deadline changes nothing. *)
Lemma loop_before_deadline (cur_time cur_hum : Z) (g : Globals) :
  ui32_gte cur_time (next_state_update_time g) = false ->
  loop cur_time cur_hum g = Some g.
Proof. intros H. unfold loop. rewrite H. reflexivity. Qed.

Lemma run_before_deadline (ticks : list (Z * Z)) (g : Globals) :
  Forall (fun tick => ui32_gte (fst tick) (next_state_update_time g) = false)
         ticks ->
  run ticks g = Some g.
Proof.
  induction 1 as [|[t h] rest Hhd _ IH]; cbn; [reflexivity|].
  cbn in Hhd. rewrite (loop_before_deadline _ _ _ Hhd). exact IH.
Qed.

Lemma run_app (xs ys : list (Z * Z)) (g : Globals) :
  run (xs ++ ys) g =
  match run xs g with Some g' => run ys g' | None => None end.
Proof.
  revert g. induction xs as [|[t h] xs IH]; intros g; cbn; [reflexivity|].
  destruct (loop t h g); [apply IH | reflexivity].
Qed.

(** Quiet passes followed by one pass at [tick]. *)
Lemma run_until (quiet : list (Z * Z)) (tick : Z * Z) (g : Globals) :
  Forall (fun q => ui32_gte (fst q) (next_state_update_time g) = false)
         quiet ->
  run (quiet ++ [tick]) g = loop (fst tick) (snd tick) g.
Proof.
  intros H. rewrite run_app, (run_before_deadline _ _ H).
  destruct tick as [t h]. cbn. destruct (loop t h g); reflexivity.
Qed.

Lemma loop_idle_dry (cur_time cur_hum : Z) (g : Globals) :
  state g = STATE_IDLE ->
  ui32_gte cur_time (next_state_update_time g) = true ->
  is_low_rh MEASURER_HIGH_MEANS_DRY cur_hum = true ->
  loop cur_time cur_hum g =
  Some (set_schedule STATE_PRE_POUR_STAGING
          (u32 (cur_time + PRE_POUR_DURATION_S * 1000)) g).
Proof.
  intros Hs Ht Hd. unfold loop. rewrite Ht, Hs, Hd. reflexivity.
Qed.

Lemma loop_staging_dry_first (cur_time cur_hum : Z) (g : Globals) :
  state g = STATE_PRE_POUR_STAGING ->
  ui32_gte cur_time (next_state_update_time g) = true ->
  is_low_rh MEASURER_HIGH_MEANS_DRY cur_hum = true ->
  last_motor_off_moment g = 0 ->
  loop cur_time cur_hum g =
  Some (set_schedule STATE_POURING
          (u32 (cur_time + pour_duration_ms g)) (motor_on g)).
Proof.
  intros Hs Ht Hd Hl. unfold loop. rewrite Ht, Hs, Hd. cbn.
  assert (Hm : last_motor_off_moment (motor_on g) = 0).
  { unfold motor_on. destruct (is_off g); cbn; exact Hl. }
  assert (Hp : pour_duration_ms (motor_on g) = pour_duration_ms g).
  { unfold motor_on. destruct (is_off g); reflexivity. }
  rewrite Hm, Hp. reflexivity.
Qed.

Lemma loop_staging_dry_again (cur_time cur_hum d : Z) (g : Globals) :
  state g = STATE_PRE_POUR_STAGING ->
  ui32_gte cur_time (next_state_update_time g) = true ->
  is_low_rh MEASURER_HIGH_MEANS_DRY cur_hum = true ->
  last_motor_off_moment g <> 0 ->
  rescale (pour_duration_ms g) (u32 (cur_time - last_motor_off_moment g))
    = Some d ->
  loop cur_time cur_hum g =
  Some (set_schedule STATE_POURING
          (u32 (cur_time + Z.min d (MAX_MOTOR_ON_TIME_S * 1000)))
          (set_pour_duration (Z.min d (MAX_MOTOR_ON_TIME_S * 1000))
             (motor_on g))).
Proof.
  intros Hs Ht Hd Hl Hr. unfold loop. rewrite Ht, Hs, Hd. cbn.
  assert (Hm : last_motor_off_moment (motor_on g) = last_motor_off_moment g).
  { unfold motor_on. destruct (is_off g); reflexivity. }
  assert (Hp : pour_duration_ms (motor_on g) = pour_duration_ms g).
  { unfold motor_on. destruct (is_off g); reflexivity. }
  rewrite Hm, Hp, Hr.
  destruct (last_motor_off_moment g =? 0) eqn:E.
  - apply Z.eqb_eq in E. contradiction.
  - reflexivity.
Qed.

Lemma loop_pouring (cur_time cur_hum : Z) (g : Globals) :
  state g = STATE_POURING ->
  ui32_gte cur_time (next_state_update_time g) = true ->
  loop cur_time cur_hum g =
  Some (set_schedule STATE_IDLE
          (u32 (cur_time + POST_POUR_DURATION_S * 1000))
          (set_last_motor_off_moment cur_time (motor_off g))).
Proof.
  intros Hs Ht. unfold loop. rewrite Ht, Hs. reflexivity.
Qed.

Lemma motor_on_is_on (g : Globals) : motor (motor_on g) = true.
Proof.
  unfold motor_on, is_off. destruct (motor g) eqn:E; cbn; [exact E|reflexivity].
Qed.

Lemma motor_off_is_off (g : Globals) : motor (motor_off g) = false.
Proof.
  unfold motor_off, is_on. destruct (motor g) eqn:E; cbn; [reflexivity|exact E].
Qed.





(** The clamp at work: twice 100000 ms is cut down to the ceiling. *)
Example pour_duration_is_clamped :
  loop 50000000 400
       (mkGlobals STATE_PRE_POUR_STAGING 50000000 6800000 100000 false [])
  = Some (mkGlobals STATE_POURING 50120000 6800000 120000 true
                    ["Motor ON."%string]).
Proof. vm_compute. reflexivity. Qed.

(** A ratio that binary32 does not hold exactly: a third of 20000 ms is
    truncated to 6666 ms. *)
Example rescale_truncates : rescale 20000 259200000 = Some 6666.
Proof. vm_compute. reflexivity. Qed.

(** A cycle so short that the product does not fit 32 bits: the
    conversion is undefined. *)
Example rescale_overflows : rescale 120000 1 = None.
Proof. vm_compute. reflexivity. Qed.

(** The comparison is right while the deadline itself has not wrapped:
    [t0] is the clock value the deadline was computed at, [e] the time
    elapsed since. *)
Lemma ui32_gte_deadline_not_wrapped (t0 dur e : Z) :
  0 <= t0 -> 0 <= dur < 2 ^ 30 -> t0 + dur < 2 ^ 32 ->
  0 <= e < 2 ^ 32 - 2 ^ 30 ->
  ui32_gte (u32 (t0 + e)) (u32 (t0 + dur)) = (dur <=? e).
Proof.
  intros H0 Hdur Hd He. unfold ui32_gte.
  rewrite (u32_small (t0 + dur)) by lia.
  destruct (Z_lt_dec (t0 + e) (2 ^ 32)) as [Hc|Hc].
  - rewrite (u32_small (t0 + e)) by lia.
    destruct (Z.leb_spec dur e) as [Hle|Hlt].
    + replace (t0 + dur <=? t0 + e) with true
        by (symmetry; apply Z.leb_le; lia).
      reflexivity.
    + replace (t0 + dur <=? t0 + e) with false
        by (symmetry; apply Z.leb_gt; lia).
      replace (t0 + e <? t0 + dur) with true by (symmetry; apply Z.ltb_lt; lia).
      rewrite u32_small by lia. cbn. apply Z.leb_gt. lia.
  - assert (Hw : u32 (t0 + e) = t0 + e - 2 ^ 32).
    { unfold u32. symmetry. apply (Z.mod_unique _ _ 1); lia. }
    rewrite Hw.
    replace (t0 + dur <=? t0 + e - 2 ^ 32) with false
      by (symmetry; apply Z.leb_gt; lia).
    replace (t0 + e - 2 ^ 32 <? t0 + dur) with true
      by (symmetry; apply Z.ltb_lt; lia).
    rewrite u32_small by lia. cbn.
    replace (dur <=? e) with true by (symmetry; apply Z.leb_le; lia).
    apply Z.leb_le. lia.
Qed.

(** The missed case: when adding the duration wrapped the deadline and the
    clock has not wrapped yet, every clock value passes the comparison,
    however little time has elapsed. *)
Lemma ui32_gte_deadline_wrapped (t0 dur e : Z) :
  0 <= t0 < 2 ^ 32 -> 0 <= dur < 2 ^ 32 -> 2 ^ 32 <= t0 + dur ->
  0 <= e < dur -> t0 + e < 2 ^ 32 ->
  ui32_gte (u32 (t0 + e)) (u32 (t0 + dur)) = true.
Proof.
  intros H0 Hdur Hw He Hc. unfold ui32_gte.
  rewrite (u32_small (t0 + e)) by lia.
  assert (Hd : u32 (t0 + dur) = t0 + dur - 2 ^ 32).
  { unfold u32. symmetry. apply (Z.mod_unique _ _ 1); lia. }
  rewrite Hd.
  replace (t0 + dur - 2 ^ 32 <=? t0 + e) with true
    by (symmetry; apply Z.leb_le; lia).
  reflexivity.
Qed.

(** C3: [ui32_gte] at a deadline that wrapped.  The idle deadline computed
    at clock value 4294966296 is 4294966296 + 60000 modulo 2^32 = 59000;
    500 ms later, with 59500 ms still to go, [ui32_gte] already answers
    true, and a pour whose deadline wrapped is ended by the next pass of
    [loop]. *)
Theorem ui32_gte_reports_wrapped_deadline_early :
  u32 (4294966296 + IDLE_DURATION_S * 1000) = 59000 /\
  u32 (59000 - 4294966796) = 59500 /\
  ui32_gte 4294966796 59000 = true /\
  loop 4294966796 400
       (mkGlobals STATE_POURING (u32 (4294966296 + 20000)) 0 20000 true [])
  = Some (mkGlobals STATE_IDLE (u32 (4294966796 + 900000)) 4294966796 20000
                    false ["Motor OFF."%string]).
Proof. repeat split; vm_compute; reflexivity. Qed.

(** C4: from [STATE_IDLE] with dry readings: the pass that reaches the idle
    deadline moves to [STATE_PRE_POUR_STAGING] with its deadline
    [PRE_POUR_DURATION_S] later; the pass that reaches that deadline moves
    to [STATE_POURING] with the motor on; the pass that reaches the pour
    deadline switches the motor off, stores the clock value in
    [last_motor_off_moment] and returns to [STATE_IDLE] with its deadline
    [POST_POUR_DURATION_S] later.  The passes in between change nothing. *)
Theorem dry_cycle_scenario :
  forall (g0 : Globals) (quiet1 quiet2 quiet3 : list (Z * Z))
         (t1 h1 t2 h2 t3 h3 : Z),
    state g0 = STATE_IDLE ->
    (last_motor_off_moment g0 <> 0 ->
     rescale (pour_duration_ms g0) (u32 (t2 - last_motor_off_moment g0))
       <> None) ->
    Forall (fun q => ui32_gte (fst q) (next_state_update_time g0) = false)
           quiet1 ->
    ui32_gte t1 (next_state_update_time g0) = true ->
    is_low_rh MEASURER_HIGH_MEANS_DRY h1 = true ->
    Forall (fun q => ui32_gte (fst q)
                       (u32 (t1 + PRE_POUR_DURATION_S * 1000)) = false)
           quiet2 ->
    ui32_gte t2 (u32 (t1 + PRE_POUR_DURATION_S * 1000)) = true ->
    is_low_rh MEASURER_HIGH_MEANS_DRY h2 = true ->
    exists g1 g2 : Globals,
      run (quiet1 ++ [(t1, h1)]) g0 = Some g1 /\
      state g1 = STATE_PRE_POUR_STAGING /\
      next_state_update_time g1 = u32 (t1 + PRE_POUR_DURATION_S * 1000) /\
      motor g1 = motor g0 /\
      run (quiet2 ++ [(t2, h2)]) g1 = Some g2 /\
      state g2 = STATE_POURING /\
      motor g2 = true /\
      next_state_update_time g2 = u32 (t2 + pour_duration_ms g2) /\
      (Forall (fun q => ui32_gte (fst q) (next_state_update_time g2) = false)
              quiet3 ->
       ui32_gte t3 (next_state_update_time g2) = true ->
       exists g3 : Globals,
         run (quiet3 ++ [(t3, h3)]) g2 = Some g3 /\
         motor g3 = false /\
         last_motor_off_moment g3 = t3 /\
         state g3 = STATE_IDLE /\
         next_state_update_time g3 = u32 (t3 + POST_POUR_DURATION_S * 1000)).
Proof.
  intros g0 quiet1 quiet2 quiet3 t1 h1 t2 h2 t3 h3
         Hs0 Hresc Hq1 Ht1 Hd1 Hq2 Ht2 Hd2.
  set (g1 := set_schedule STATE_PRE_POUR_STAGING
               (u32 (t1 + PRE_POUR_DURATION_S * 1000)) g0).
  assert (Hrun1 : run (quiet1 ++ [(t1, h1)]) g0 = Some g1).
  { rewrite (run_until _ _ _ Hq1). cbn [fst snd].
    apply loop_idle_dry; assumption. }
  assert (Hstep2 : exists g2, loop t2 h2 g1 = Some g2 /\
                              state g2 = STATE_POURING /\ motor g2 = true /\
                              next_state_update_time g2
                                = u32 (t2 + pour_duration_ms g2)).
  { destruct (Z.eq_dec (last_motor_off_moment g0) 0) as [Hz|Hnz].
    - exists (set_schedule STATE_POURING
                (u32 (t2 + pour_duration_ms g1)) (motor_on g1)).
      split; [apply loop_staging_dry_first; auto|].
      split; [reflexivity|]. split; [apply motor_on_is_on|].
      unfold motor_on. destruct (is_off g1); reflexivity.
    - destruct (rescale (pour_duration_ms g0)
                  (u32 (t2 - last_motor_off_moment g0))) as [d|] eqn:Hr.
      2:{ exfalso. apply (Hresc Hnz). reflexivity. }
      exists (set_schedule STATE_POURING
                (u32 (t2 + Z.min d (MAX_MOTOR_ON_TIME_S * 1000)))
                (set_pour_duration (Z.min d (MAX_MOTOR_ON_TIME_S * 1000))
                   (motor_on g1))).
      split; [apply loop_staging_dry_again; auto|].
      split; [reflexivity|]. split; [apply motor_on_is_on|]. reflexivity. }
  destruct Hstep2 as (g2 & Hl2 & Hs2 & Hm2 & Hn2).
  exists g1, g2.
  split; [exact Hrun1|]. split; [reflexivity|]. split; [reflexivity|].
  split; [reflexivity|].
  split. { rewrite (run_until quiet2 (t2, h2) g1 Hq2). exact Hl2. }
  split; [exact Hs2|]. split; [exact Hm2|]. split; [exact Hn2|].
  intros Hq3 Ht3.
  eexists. split.
  { rewrite (run_until _ _ _ Hq3). cbn [fst snd].
    apply loop_pouring; assumption. }
  cbn. repeat split; try reflexivity. apply motor_off_is_off.
Qed.

Lemma dry_cycle_scenario_witness :
  exists g1 g2 : Globals,
    run ([] ++ [(1000, 400)]) (initial 1000) = Some g1 /\
    state g1 = STATE_PRE_POUR_STAGING /\
    next_state_update_time g1 = u32 (1000 + PRE_POUR_DURATION_S * 1000) /\
    motor g1 = motor (initial 1000) /\
    run ([(11000, 400)] ++ [(181000, 400)]) g1 = Some g2 /\
    state g2 = STATE_POURING /\
    motor g2 = true /\
    next_state_update_time g2 = u32 (181000 + pour_duration_ms g2) /\
    (Forall (fun q => ui32_gte (fst q) (next_state_update_time g2) = false)
            [(191000, 400)] ->
     ui32_gte 201000 (next_state_update_time g2) = true ->
     exists g3 : Globals,
       run ([(191000, 400)] ++ [(201000, 400)]) g2 = Some g3 /\
       motor g3 = false /\
       last_motor_off_moment g3 = 201000 /\
       state g3 = STATE_IDLE /\
       next_state_update_time g3 = u32 (201000 + POST_POUR_DURATION_S * 1000)).
Proof.
  apply (dry_cycle_scenario (initial 1000) [] [(11000, 400)] [(191000, 400)]
           1000 400 181000 400 201000 400).
  - reflexivity.
  - intros H. exfalso. apply H. reflexivity.
  - constructor.
  - reflexivity.
  - reflexivity.
  - repeat constructor.
  - reflexivity.
  - reflexivity.
Defined.

End PourManagerFacts.

(** * Facts about Motors.cpp *)

Import Motors.

Section MotorsFacts.

Lemma arrived_nonneg (t : Z) (q : list (Z * ascii)) : 0 <= arrived t q.
Proof.
  induction q as [|[a b] q IH]; cbn [arrived]; [lia|].
  destruct (a <=? t); lia.
Qed.

Lemma arrived_nil (t : Z) : arrived t [] = 0.
Proof. reflexivity. Qed.

Lemma arrived_cons (t a : Z) (b : ascii) (q : list (Z * ascii)) :
  (arrived t ((a, b) :: q) =? 0) = negb (a <=? t).
Proof.
  cbn [arrived]. destruct (a <=? t); cbn [negb]; [|reflexivity].
  apply Z.eqb_neq. pose proof (arrived_nonneg t q). lia.
Qed.

Lemma arrived_zero_cases (t : Z) (q : list (Z * ascii)) :
  arrived t q = 0 ->
  q = [] \/ exists a b q', q = (a, b) :: q' /\ t < a.
Proof.
  destruct q as [|[a b] q']; [auto|]. intros H. right.
  exists a, b, q'. split; [reflexivity|].
  apply Z.eqb_eq in H. rewrite arrived_cons in H.
  destruct (Z.leb_spec a t); [discriminate|lia].
Qed.

Lemma char_of_int_byte (b : ascii) : char_of_int (Z.of_N (N_of_ascii b)) = b.
Proof.
  unfold char_of_int, u8.
  pose proof (N_ascii_bounded b) as Hb.
  rewrite Z.mod_small by lia.
  rewrite N2Z.id. apply ascii_N_embedding.
Qed.

Ltac body_reads Hrx Ha :=
  let Hle := fresh "Hle" in
  pose proof (proj2 (Z.leb_le _ _) Ha) as Hle;
  unfold WaitForReadySignal_body, bind, available, read,
    get_TimePerCharacter_Ms, delay, ret;
  cbn beta; rewrite Hrx, arrived_cons, Hle;
  cbn [negb]; cbn beta iota; rewrite Hrx, Hle;
  cbn beta iota; rewrite char_of_int_byte.

(** The four ways through the body of the [while]. *)
Lemma body_idle (Chars : ascii * ascii * ascii) (l : Line) :
  arrived (now l) (rx l) = 0 ->
  WaitForReadySignal_body Chars l
  = Ok (Again Chars) (advance (TimePerCharacter_Ms l) l).
Proof.
  intros H. destruct Chars as [[c0 c1] c2].
  unfold WaitForReadySignal_body, bind, available. rewrite H. reflexivity.
Qed.

Lemma body_other (c0 c1 c2 : ascii) (l : Line) (a : Z) (b : ascii)
      (q : list (Z * ascii)) :
  rx l = (a, b) :: q -> a <= now l ->
  is_ready (b, c0, c1) = false ->
  WaitForReadySignal_body (c0, c1, c2) l
  = Ok (Again (b, c0, c1))
       (advance (TimePerCharacter_Ms l) (with_rx q l)).
Proof.
  intros Hrx Ha Hr.
  body_reads Hrx Ha.
  unfold is_ready in Hr. rewrite Hr. reflexivity.
Qed.

Lemma body_ready (c0 c1 c2 : ascii) (l : Line) (a : Z) (b : ascii)
      (q : list (Z * ascii)) :
  rx l = (a, b) :: q -> a <= now l ->
  is_ready (b, c0, c1) = true ->
  arrived (now l + TimePerCharacter_Ms l) q = 0 ->
  WaitForReadySignal_body (c0, c1, c2) l
  = Ok (Return true) (advance (TimePerCharacter_Ms l) (with_rx q l)).
Proof.
  intros Hrx Ha Hr Hq.
  body_reads Hrx Ha.
  unfold is_ready in Hr. rewrite Hr. cbn. rewrite Hq. reflexivity.
Qed.

Lemma body_false_match (c0 c1 c2 : ascii) (l : Line) (a : Z) (b : ascii)
      (q : list (Z * ascii)) :
  rx l = (a, b) :: q -> a <= now l ->
  is_ready (b, c0, c1) = true ->
  arrived (now l + TimePerCharacter_Ms l) q <> 0 ->
  WaitForReadySignal_body (c0, c1, c2) l
  = Ok (Again (b, c0, c1))
       (advance (TimePerCharacter_Ms l)
          (advance (TimePerCharacter_Ms l) (with_rx q l))).
Proof.
  intros Hrx Ha Hr Hq.
  body_reads Hrx Ha.
  unfold is_ready in Hr. rewrite Hr. cbn.
  apply Z.eqb_neq in Hq. rewrite Hq. reflexivity.
Qed.

Lemma body_cases (c0 c1 c2 : ascii) (l : Line) :
  (arrived (now l) (rx l) = 0 /\
   WaitForReadySignal_body (c0, c1, c2) l
   = Ok (Again (c0, c1, c2)) (advance (TimePerCharacter_Ms l) l))
  \/
  exists (a : Z) (b : ascii) (q : list (Z * ascii)),
    rx l = (a, b) :: q /\ a <= now l /\
    ((is_ready (b, c0, c1) = false /\
      WaitForReadySignal_body (c0, c1, c2) l
      = Ok (Again (b, c0, c1))
           (advance (TimePerCharacter_Ms l) (with_rx q l)))
     \/
     (is_ready (b, c0, c1) = true /\
      arrived (now l + TimePerCharacter_Ms l) q = 0 /\
      WaitForReadySignal_body (c0, c1, c2) l
      = Ok (Return true) (advance (TimePerCharacter_Ms l) (with_rx q l)))
     \/
     (is_ready (b, c0, c1) = true /\
      arrived (now l + TimePerCharacter_Ms l) q <> 0 /\
      WaitForReadySignal_body (c0, c1, c2) l
      = Ok (Again (b, c0, c1))
           (advance (TimePerCharacter_Ms l)
              (advance (TimePerCharacter_Ms l) (with_rx q l))))).
Proof.
  destruct (Z.eq_dec (arrived (now l) (rx l)) 0) as [Hz|Hnz].
  - left. split; [exact Hz|]. apply body_idle. exact Hz.
  - right. destruct (rx l) as [|[a b] q] eqn:Hrx; [contradiction|].
    assert (Ha : a <= now l).
    { apply Z.eqb_neq in Hnz. rewrite arrived_cons in Hnz.
      destruct (Z.leb_spec a (now l)); [assumption|discriminate]. }
    exists a, b, q. split; [reflexivity|]. split; [exact Ha|].
    destruct (is_ready (b, c0, c1)) eqn:Hr.
    + right.
      destruct (Z.eq_dec (arrived (now l + TimePerCharacter_Ms l) q) 0)
        as [Hq|Hq].
      * left. split; [reflexivity|]. split; [exact Hq|].
        apply (body_ready c0 c1 c2 l a b q); assumption.
      * right. split; [reflexivity|]. split; [exact Hq|].
        apply (body_false_match c0 c1 c2 l a b q); assumption.
    + left. split; [reflexivity|].
      apply (body_other c0 c1 c2 l a b q); assumption.
Qed.

(** One unfolding of the [while]. *)
Lemma loop_unfold (fuel : nat) (T S0 : Z) (Chars : ascii * ascii * ascii)
      (l : Line) :
  WaitForReadySignal_loop (S fuel) T S0 Chars l =
  if u32 (u32 (now l) - S0) <? T then
    match WaitForReadySignal_body Chars l with
    | Ok (Return value) l' => Ok value l'
    | Ok (Again Chars') l' => WaitForReadySignal_loop fuel T S0 Chars' l'
    | Crash f => Crash f
    end
  else Ok false l.
Proof.
  cbn [WaitForReadySignal_loop].
  unfold GetTimePassed_Ms, millis, ret, bind. cbn [Z.eqb]. cbn beta iota.
  destruct (u32 (u32 (now l) - S0) <? T); [|reflexivity].
  destruct (WaitForReadySignal_body Chars l) as [[v|C] l'|f]; reflexivity.
Qed.

Lemma elapsed_exact (t t0 : Z) :
  0 <= t - t0 < 2 ^ 32 -> u32 (u32 t - u32 t0) = t - t0.
Proof.
  intros H. unfold u32. rewrite <- Zminus_mod. apply Z.mod_small. exact H.
Qed.

Lemma is_ready_window (h : list ascii) :
  is_ready (window h) = true ->
  exists rest, h = newline :: letter_G :: newline :: rest.
Proof.
  destruct h as [|x [|y [|z rest]]]; cbn; intros H; try discriminate.
  apply andb_prop in H. destruct H as [H Hx].
  apply andb_prop in H. destruct H as [Hz Hy].
  apply Ascii.eqb_eq in Hx, Hy, Hz. subst. exists rest. reflexivity.
Qed.

Lemma window_after_sentinel (h p : list ascii) :
  rev h = p ++ sentinel -> is_ready (window h) = true.
Proof.
  intros H. apply (f_equal (@rev ascii)) in H.
  rewrite rev_involutive, rev_app_distr in H. subst h. reflexivity.
Qed.

(** The [while] returns, within the time allowed plus at most two
    per-character delays, and touches neither what was written nor the
    per-character delay; it only reads from the front of [rx]. *)
Lemma wait_loop_returns (fuel : nat) :
  forall (T t0 : Z) (Chars : ascii * ascii * ascii) (l : Line),
    1 <= TimePerCharacter_Ms l ->
    T + 2 * TimePerCharacter_Ms l <= 2 ^ 32 ->
    0 <= now l - t0 < T + 2 * TimePerCharacter_Ms l ->
    Z.max 1 (T - (now l - t0) + 1) <= Z.of_nat fuel ->
    exists (v : bool) (l' : Line),
      WaitForReadySignal_loop fuel T (u32 t0) Chars l = Ok v l' /\
      tx l' = tx l /\ console l' = console l /\
      TimePerCharacter_Ms l' = TimePerCharacter_Ms l /\
      now l <= now l' /\
      now l' - t0 < T + 2 * TimePerCharacter_Ms l /\
      (v = true -> now l' - t0 < T + TimePerCharacter_Ms l) /\
      (v = false -> T <= now l' - t0) /\
      exists consumed, rx l = consumed ++ rx l'.
Proof.
  induction fuel as [|fuel IH]; intros T t0 [[c0 c1] c2] l Hd Hw He Hf.
  { cbn in Hf. lia. }
  rewrite loop_unfold, elapsed_exact by lia.
  destruct (Z.ltb_spec (now l - t0) T) as [Hlt|Hge].
  2:{ exists false, l.
      repeat split; try reflexivity; try lia; try (intros; discriminate).
      exists []. reflexivity. }
  assert (Hfuel : Z.max 1 (T - (now l - t0)) <= Z.of_nat fuel) by lia.
  destruct (body_cases c0 c1 c2 l)
    as [[Hz Hb]|(a & b & q & Hrx & Ha &
                 [[Hr Hb]|[(Hr & Hq & Hb)|(Hr & Hq & Hb)]])];
    rewrite Hb; clear Hb.
  - destruct (IH T t0 (c0, c1, c2) (advance (TimePerCharacter_Ms l) l))
      as (v & l' & Hl & Htx & Hco & Htpc & Hnow & Hup & Ht & Hfa & cs & Hcs);
      cbn [advance now rx tx console TimePerCharacter_Ms] in *; try lia.
    exists v, l'. rewrite Hl. repeat split; try assumption; try lia.
    exists cs. exact Hcs.
  - destruct (IH T t0 (b, c0, c1)
                (advance (TimePerCharacter_Ms l) (with_rx q l)))
      as (v & l' & Hl & Htx & Hco & Htpc & Hnow & Hup & Ht & Hfa & cs & Hcs);
      cbn [advance with_rx now rx tx console TimePerCharacter_Ms] in *;
      try lia.
    exists v, l'. rewrite Hl. repeat split; try assumption; try lia.
    exists ((a, b) :: cs). rewrite Hrx, Hcs. reflexivity.
  - exists true, (advance (TimePerCharacter_Ms l) (with_rx q l)).
    cbn [advance with_rx now rx tx console TimePerCharacter_Ms].
    repeat split; try reflexivity; try lia; try (intros; discriminate).
    exists [(a, b)]. rewrite Hrx. reflexivity.
  - destruct (IH T t0 (b, c0, c1)
                (advance (TimePerCharacter_Ms l)
                   (advance (TimePerCharacter_Ms l) (with_rx q l))))
      as (v & l' & Hl & Htx & Hco & Htpc & Hnow & Hup & Ht & Hfa & cs & Hcs);
      cbn [advance with_rx now rx tx console TimePerCharacter_Ms] in *;
      try lia.
    exists v, l'. rewrite Hl. repeat split; try assumption; try lia.
    exists ((a, b) :: cs). rewrite Hrx, Hcs. reflexivity.
Qed.

Lemma WaitForReadySignal_returns (T : Z) (l : Line) :
  1 <= TimePerCharacter_Ms l <= 255 -> 0 <= T < 2 ^ 16 ->
  exists (v : bool) (l' : Line),
    WaitForReadySignal T l = Ok v l' /\
    tx l' = tx l /\ console l' = console l /\
    TimePerCharacter_Ms l' = TimePerCharacter_Ms l /\
    now l <= now l' /\
    now l' - now l < T + 2 * TimePerCharacter_Ms l /\
    (v = true -> now l' - now l < T + TimePerCharacter_Ms l) /\
    (v = false -> T <= now l' - now l) /\
    exists consumed, rx l = consumed ++ rx l'.
Proof.
  intros Hd HT. unfold WaitForReadySignal, bind, millis.
  apply wait_loop_returns; lia.
Qed.

(** When the [while] returns true, the bytes read last are the ready
    signal, they were all there one per-character delay before the return,
    and nothing else has arrived by the return. *)
Lemma wait_loop_sound (fuel : nat) :
  forall (T S0 : Z) (h : list ascii) (l l' : Line),
    0 <= TimePerCharacter_Ms l ->
    WaitForReadySignal_loop fuel T S0 (window h) l = Ok true l' ->
    exists (consumed : list (Z * ascii)) (rest : list ascii),
      rx l = consumed ++ rx l' /\
      rev (map snd consumed) ++ h = newline :: letter_G :: newline :: rest /\
      arrived (now l') (rx l') = 0 /\
      now l + TimePerCharacter_Ms l <= now l' /\
      Forall (fun x => fst x <= now l' - TimePerCharacter_Ms l) consumed.
Proof.
  induction fuel as [|fuel IH]; intros T S0 h l l' Hd H.
  { discriminate H. }
  rewrite loop_unfold in H.
  destruct (u32 (u32 (now l) - S0) <? T); [|discriminate H].
  unfold window in H.
  destruct (body_cases (nth 0 h zero) (nth 1 h zero) (nth 2 h zero) l)
    as [[Hz Hb]|(a & b & q & Hrx & Ha &
                 [[Hr Hb]|[(Hr & Hq & Hb)|(Hr & Hq & Hb)]])];
    rewrite Hb in H; clear Hb.
  - apply (IH T S0 h) in H; [|exact Hd].
    destruct H as (cs & rest & Hcs & Hsig & Harr & Hnow & Hall).
    cbn [advance now rx TimePerCharacter_Ms] in *.
    exists cs, rest. repeat split; try assumption; lia.
  - apply (IH T S0 (b :: h)) in H; [|exact Hd].
    destruct H as (cs & rest & Hcs & Hsig & Harr & Hnow & Hall).
    cbn [advance with_rx now rx TimePerCharacter_Ms] in *.
    exists ((a, b) :: cs), rest. repeat split; try assumption; try lia.
    + rewrite Hrx, Hcs. reflexivity.
    + cbn [map snd rev]. rewrite <- app_assoc. exact Hsig.
    + constructor; [cbn [fst]; lia|exact Hall].
  - injection H as H. subst l'.
    cbn [advance with_rx now rx TimePerCharacter_Ms].
    destruct (is_ready_window (b :: h) Hr) as [rest Hrest].
    exists [(a, b)], rest. repeat split; try assumption; try lia.
    constructor; [cbn [fst]; lia|constructor].
  - apply (IH T S0 (b :: h)) in H; [|exact Hd].
    destruct H as (cs & rest & Hcs & Hsig & Harr & Hnow & Hall).
    cbn [advance with_rx now rx TimePerCharacter_Ms] in *.
    exists ((a, b) :: cs), rest. repeat split; try assumption; try lia.
    + rewrite Hrx, Hcs. reflexivity.
    + cbn [map snd rev]. rewrite <- app_assoc. exact Hsig.
    + constructor; [cbn [fst]; lia|exact Hall].
Qed.

Lemma WaitForReadySignal_sound (T : Z) (l l' : Line) :
  0 <= TimePerCharacter_Ms l ->
  WaitForReadySignal T l = Ok true l' ->
  exists (consumed : list (Z * ascii)) (before : list ascii),
    rx l = consumed ++ rx l' /\
    map snd consumed = before ++ sentinel /\
    arrived (now l') (rx l') = 0 /\
    now l + TimePerCharacter_Ms l <= now l' /\
    Forall (fun x => fst x <= now l' - TimePerCharacter_Ms l) consumed.
Proof.
  intros Hd H. unfold WaitForReadySignal, bind, millis in H.
  change (zero, zero, zero) with (window []) in H.
  apply wait_loop_sound in H; [|exact Hd].
  destruct H as (cs & rest & Hcs & Hsig & Harr & Hnow & Hall).
  exists cs, (rev rest). repeat split; try assumption.
  rewrite app_nil_r in Hsig.
  apply (f_equal (@rev ascii)) in Hsig. rewrite rev_involutive in Hsig.
  rewrite Hsig. cbn [rev]. unfold sentinel.
  repeat rewrite <- app_assoc. reflexivity.
Qed.

(** When what is left on the wire ends in the ready signal, every byte
    of it arrives by [A], and the time allowed covers the arrival of the
    last byte and two per-character delays for each byte before it, the
    [while] returns true. *)
Lemma wait_loop_complete (fuel : nat) :
  forall (T t0 A : Z) (h : list ascii) (l : Line),
    1 <= TimePerCharacter_Ms l ->
    T + 2 * TimePerCharacter_Ms l <= 2 ^ 32 ->
    0 <= now l - t0 ->
    rx l <> [] ->
    (exists p, rev h ++ map snd (rx l) = p ++ sentinel) ->
    Forall (fun x => fst x <= A) (rx l) ->
    Z.max (now l) (A + TimePerCharacter_Ms l)
      + 2 * (TimePerCharacter_Ms l * Z.of_nat (List.length (rx l)))
      - 2 * TimePerCharacter_Ms l - t0 < T ->
    Z.max 1 (T - (now l - t0) + 1) <= Z.of_nat fuel ->
    exists l', WaitForReadySignal_loop fuel T (u32 t0) (window h) l
               = Ok true l'.
Proof.
  induction fuel as [|fuel IH];
    intros T t0 A h l Hd Hw He Hne [p Hsig] Hall Hpot Hf.
  { cbn in Hf. lia. }
  destruct (rx l) as [|[a b] q] eqn:Hrx; [contradiction|].
  set (d := TimePerCharacter_Ms l) in *.
  assert (HL : 0 <= d * Z.of_nat (List.length q))
    by (apply Z.mul_nonneg_nonneg; lia).
  assert (Hlen : d * Z.of_nat (List.length ((a, b) :: q))
                 = d * Z.of_nat (List.length q) + d).
  { cbn [List.length]. rewrite Nat2Z.inj_succ. ring. }
  rewrite Hlen in Hpot.
  inversion Hall as [|x xs HaA HallQ]; subst x xs. cbn [fst] in HaA.
  rewrite loop_unfold, elapsed_exact by lia.
  replace (now l - t0 <? T) with true by (symmetry; apply Z.ltb_lt; lia).
  unfold window.
  destruct (body_cases (nth 0 h zero) (nth 1 h zero) (nth 2 h zero) l)
    as [[Hz Hb]|(a' & b' & q' & Hrx' & Ha & Hcases)].
  - rewrite Hb. clear Hb.
    assert (Hlate : now l < a).
    { rewrite Hrx in Hz. apply Z.eqb_eq in Hz. rewrite arrived_cons in Hz.
      destruct (Z.leb_spec a (now l)); [discriminate|assumption]. }
    apply (IH T t0 A h (advance d l));
      cbn [advance now rx TimePerCharacter_Ms]; fold d; try lia.
    + rewrite Hrx. discriminate.
    + exists p. rewrite Hrx. exact Hsig.
    + rewrite Hrx. exact Hall.
    + rewrite Hrx, Hlen. lia.
  - rewrite Hrx in Hrx'. injection Hrx' as <- <- <-.
    assert (Hsig' : rev (b :: h) ++ map snd q = p ++ sentinel).
    { cbn [rev]. rewrite <- app_assoc. exact Hsig. }
    destruct Hcases as [[Hr Hb]|[(Hr & Hq & Hb)|(Hr & Hq & Hb)]];
      rewrite Hb; clear Hb.
    + assert (Hq : q <> []).
      { intros ->. cbn [map] in Hsig'. rewrite app_nil_r in Hsig'.
        apply window_after_sentinel in Hsig'.
        unfold window in Hsig'. cbn [nth] in Hsig'. congruence. }
      apply (IH T t0 A (b :: h) (advance d (with_rx q l)));
        cbn [advance with_rx now rx TimePerCharacter_Ms]; fold d;
        try assumption; try lia.
      exists p. exact Hsig'.
    + eexists. reflexivity.
    + assert (Hq' : q <> []).
      { intros ->. apply Hq. reflexivity. }
      apply (IH T t0 A (b :: h) (advance d (advance d (with_rx q l))));
        cbn [advance with_rx now rx TimePerCharacter_Ms]; fold d;
        try assumption; try lia.
      exists p. exact Hsig'.
Qed.

Lemma WaitForReadySignal_complete (T A : Z) (l : Line) :
  1 <= TimePerCharacter_Ms l <= 255 -> 0 <= T < 2 ^ 16 ->
  (exists p, map snd (rx l) = p ++ sentinel) ->
  Forall (fun x => fst x <= A) (rx l) ->
  Z.max 0 (A + TimePerCharacter_Ms l - now l)
    + 2 * (TimePerCharacter_Ms l * (Z.of_nat (List.length (rx l)) - 1)) < T ->
  exists l', WaitForReadySignal T l = Ok true l'.
Proof.
  intros Hd HT [p Hsig] Hall Hpot. unfold WaitForReadySignal, bind, millis.
  change (zero, zero, zero) with (window []).
  apply (wait_loop_complete _ T (now l) A [] l); try lia.
  - intros Hnil. rewrite Hnil in Hsig. cbn in Hsig.
    destruct p; discriminate Hsig.
  - exists p. exact Hsig.
  - exact Hall.
Qed.

(** Waiting writes nothing and leaves the per-character delay alone. *)
Lemma wait_loop_frame (fuel : nat) :
  forall (T S0 : Z) (Chars : ascii * ascii * ascii) (l l' : Line) (v : bool),
    WaitForReadySignal_loop fuel T S0 Chars l = Ok v l' ->
    tx l' = tx l /\ console l' = console l /\
    TimePerCharacter_Ms l' = TimePerCharacter_Ms l.
Proof.
  induction fuel as [|fuel IH]; intros T S0 [[c0 c1] c2] l l' v H.
  { discriminate H. }
  rewrite loop_unfold in H.
  destruct (u32 (u32 (now l) - S0) <? T).
  2:{ injection H as _ <-. auto. }
  destruct (body_cases c0 c1 c2 l)
    as [[Hz Hb]|(a & b & q & Hrx & Ha &
                 [[Hr Hb]|[(Hr & Hq & Hb)|(Hr & Hq & Hb)]])];
    rewrite Hb in H; clear Hb.
  - apply IH in H. exact H.
  - apply IH in H. exact H.
  - injection H as _ <-. auto.
  - apply IH in H. exact H.
Qed.

Lemma WaitForReadySignal_frame (T : Z) (l l' : Line) (v : bool) :
  WaitForReadySignal T l = Ok v l' ->
  tx l' = tx l /\ console l' = console l /\
  TimePerCharacter_Ms l' = TimePerCharacter_Ms l.
Proof.
  unfold WaitForReadySignal, bind, millis. apply wait_loop_frame.
Qed.

(** [SendCommand] when nothing is waiting on the line. *)
Lemma SendCommand_quiet (Commands : string) (T : Z) (l : Line) :
  arrived (now l) (rx l) = 0 ->
  SendCommand Commands T l
  = WaitForReadySignal T
      (mkLine (now l) (rx l) (tx l ++ Commands) (console l)
              (TimePerCharacter_Ms l)).
Proof.
  intros H. unfold SendCommand, bind, available, write, ret.
  rewrite H. reflexivity.
Qed.

(** [SendCommand] when the board is already talking. *)
Lemma SendCommand_chatter (Commands : string) (T : Z) (l : Line) :
  arrived (now l) (rx l) <> 0 ->
  SendCommand Commands T l
  = match WaitForReadySignal Motorboard_PrintHelpMaxTime_Ms l with
    | Ok true l1 =>
        WaitForReadySignal T
          (mkLine (now l1) (rx l1) (tx l1 ++ Commands) (console l1)
                  (TimePerCharacter_Ms l1))
    | Ok false l1 => Ok false l1
    | Crash f => Crash f
    end.
Proof.
  intros H. apply Z.eqb_neq in H.
  unfold SendCommand, bind, available, write, ret. rewrite H. cbn [negb].
  destruct (WaitForReadySignal Motorboard_PrintHelpMaxTime_Ms l)
    as [[|] l1|f]; reflexivity.
Qed.

(** C5: with a per-character delay [d] and a timeout [T]:
    on a line whose remaining bytes are any leading bytes followed by
    newline, 'G', newline and nothing more, [WaitForReadySignal] returns
    true when [T] is sufficient (it covers the arrival of the last byte and
    two per-character delays for each byte before it); whenever it returns
    true, the bytes read last are the signal, all bytes read were there one
    per-character delay before the return, and nothing further has arrived
    by the return; and on a line that nowhere carries the three bytes in a
    row (one that ends in newline, 'G', say) it returns false. *)
Theorem ready_signal_detection :
  forall (T d : Z),
    1 <= d <= 255 ->
    0 <= T < 2 ^ 16 ->
    (forall (l : Line) (lead : list (Z * ascii)) (a1 a2 a3 A : Z),
       TimePerCharacter_Ms l = d ->
       rx l = lead ++ [(a1, newline); (a2, letter_G); (a3, newline)] ->
       Forall (fun x => fst x <= A) (rx l) ->
       Z.max 0 (A + d - now l)
         + 2 * (d * (Z.of_nat (List.length (rx l)) - 1)) < T ->
       exists l', WaitForReadySignal T l = Ok true l') /\
    (forall l l' : Line,
       TimePerCharacter_Ms l = d ->
       WaitForReadySignal T l = Ok true l' ->
       exists consumed before,
         rx l = consumed ++ rx l' /\
         map snd consumed = before ++ sentinel /\
         Forall (fun x => fst x <= now l' - d) consumed /\
         arrived (now l') (rx l') = 0) /\
    (forall l : Line,
       TimePerCharacter_Ms l = d ->
       (forall before after,
          map snd (rx l) <> before ++ sentinel ++ after) ->
       exists l', WaitForReadySignal T l = Ok false l').
Proof.
  intros T d Hd HT. split; [|split].
  - intros l lead a1 a2 a3 A Hl Hrx Hall Hpot. subst d.
    apply (WaitForReadySignal_complete T A l Hd HT); try assumption.
    exists (map snd lead). rewrite Hrx, map_app. reflexivity.
  - intros l l' Hl Htrue. subst d.
    destruct (WaitForReadySignal_sound T l l') as
      (consumed & before & Hcs & Hsig & Harr & _ & Hthere);
      [lia|exact Htrue|].
    exists consumed, before. auto.
  - intros l Hl Hnone. subst d.
    destruct (WaitForReadySignal_returns T l) as (v & l' & Hl' & _);
      [lia|exact HT|].
    destruct v; [|exists l'; exact Hl'].
    exfalso.
    destruct (WaitForReadySignal_sound T l l') as
      (consumed & before & Hcs & Hsig & _); [lia|exact Hl'|].
    apply (Hnone before (map snd (rx l'))).
    rewrite Hcs, map_app, Hsig, <- app_assoc. reflexivity.
Qed.

Lemma ready_signal_detection_witness :
  exists l',
    WaitForReadySignal 100
      (mkLine 0 [(0, "x"%char); (3, newline); (5, letter_G); (9, newline)]
              "" "" 2)
    = Ok true l'.
Proof.
  assert (Hd : 1 <= 2 <= 255) by lia.
  assert (HT : 0 <= 100 < 2 ^ 16) by lia.
  apply (proj1 (ready_signal_detection 100 2 Hd HT)
           (mkLine 0 [(0, "x"%char); (3, newline); (5, letter_G);
                      (9, newline)] "" "" 2)
           [(0, "x"%char)] 3 5 9 9).
  - reflexivity.
  - reflexivity.
  - repeat constructor; cbn; lia.
  - cbn. lia.
Defined.

(** A line that ends in newline, 'G': the time runs out. *)
Example partial_signal_times_out :
  WaitForReadySignal 100
    (line_with 0 2 (String newline (String letter_G EmptyString)))
  = Ok false (mkLine 100 [] "" "" 2).
Proof. vm_compute. reflexivity. Qed.

(** C6, as the code has it: when the three bytes read last are the ready
    signal but another byte has arrived by the end of the per-character
    delay, the pass does not return; it waits one more per-character delay
    and the loop goes on with [Chars] still holding the three bytes of the
    signal. *)
Theorem false_match_keeps_window :
  forall (fuel : nat) (T S0 : Z) (c0 c1 c2 : ascii) (l : Line)
         (a : Z) (b : ascii) (q : list (Z * ascii)),
    rx l = (a, b) :: q -> a <= now l ->
    is_ready (b, c0, c1) = true ->
    arrived (now l + TimePerCharacter_Ms l) q <> 0 ->
    u32 (u32 (now l) - S0) < T ->
    let l' := advance (TimePerCharacter_Ms l)
                (advance (TimePerCharacter_Ms l) (with_rx q l)) in
    WaitForReadySignal_body (c0, c1, c2) l
    = Ok (Again (newline, letter_G, newline)) l' /\
    WaitForReadySignal_loop (S fuel) T S0 (c0, c1, c2) l
    = WaitForReadySignal_loop fuel T S0 (newline, letter_G, newline) l'.
Proof.
  intros fuel T S0 c0 c1 c2 l a b q Hrx Ha Hr Hq Ht l'.
  assert (Hb : WaitForReadySignal_body (c0, c1, c2) l
               = Ok (Again (newline, letter_G, newline)) l').
  { rewrite (body_false_match c0 c1 c2 l a b q Hrx Ha Hr Hq).
    change (b, c0, c1) with (window [b; c0; c1]) in Hr.
    destruct (is_ready_window _ Hr) as [rest Hw].
    injection Hw as -> -> -> _. reflexivity. }
  split; [exact Hb|].
  rewrite loop_unfold, Hb.
  replace (u32 (u32 (now l) - S0) <? T) with true
    by (symmetry; apply Z.ltb_lt; exact Ht).
  reflexivity.
Qed.

Lemma false_match_keeps_window_witness :
  WaitForReadySignal_body (letter_G, newline, zero)
    (mkLine 0 [(0, newline); (0, "x"%char)] "" "" 2)
  = Ok (Again (newline, letter_G, newline))
       (mkLine 4 [(0, "x"%char)] "" "" 2) /\
  WaitForReadySignal_loop 3 100 0 (letter_G, newline, zero)
    (mkLine 0 [(0, newline); (0, "x"%char)] "" "" 2)
  = WaitForReadySignal_loop 2 100 0 (newline, letter_G, newline)
      (mkLine 4 [(0, "x"%char)] "" "" 2).
Proof.
  apply (false_match_keeps_window 2 100 0 letter_G newline zero
           (mkLine 0 [(0, newline); (0, "x"%char)] "" "" 2)
           0 newline [(0, "x"%char)]).
  - reflexivity.
  - cbn. lia.
  - reflexivity.
  - cbn. lia.
  - vm_compute. reflexivity.
Defined.

(** C6, the counterexample: after a rejected match [Chars] is not cleared.
    With newline, 'G' read before and newline, 'x' waiting, the pass ends
    with [Chars] holding newline, 'G', newline; and the five bytes
    newline, 'G', newline, 'G', newline are accepted at the fifth byte,
    whose match starts at the newline that ended the rejected one. *)
Lemma false_match_does_not_clear_window :
  (exists l',
     WaitForReadySignal_body (letter_G, newline, zero)
       (mkLine 0 [(0, newline); (0, "x"%char)] "" "" 2)
     = Ok (Again (newline, letter_G, newline)) l') /\
  (newline, letter_G, newline) <> (zero, zero, zero) /\
  WaitForReadySignal 100
    (mkLine 0 [(0, newline); (0, letter_G); (0, newline);
               (0, letter_G); (0, newline)] "" "" 2)
  = Ok true (mkLine 12 [] "" "" 2).
Proof.
  split; [|split].
  - eexists. vm_compute. reflexivity.
  - discriminate.
  - vm_compute. reflexivity.
Qed.

(** C7, as the code has it: [SendCommand] always returns.  When nothing is
    waiting on the line at the call it returns within the timeout plus two
    per-character delays; when bytes are waiting and the leading wait does
    not confirm a ready signal it returns false within
    [Motorboard_PrintHelpMaxTime_Ms] plus two per-character delays; in
    every case it returns within the sum of both waits. *)
Theorem SendCommand_returns_in_time :
  forall (Commands : string) (T : Z) (l : Line),
    1 <= TimePerCharacter_Ms l <= 255 ->
    0 <= T < 2 ^ 16 ->
    exists (v : bool) (l' : Line),
      SendCommand Commands T l = Ok v l' /\
      (arrived (now l) (rx l) = 0 ->
       now l' - now l < T + 2 * TimePerCharacter_Ms l) /\
      (arrived (now l) (rx l) <> 0 ->
       (forall l1, WaitForReadySignal Motorboard_PrintHelpMaxTime_Ms l
                   <> Ok true l1) ->
       v = false /\
       now l' - now l
       < Motorboard_PrintHelpMaxTime_Ms + 2 * TimePerCharacter_Ms l) /\
      now l' - now l
      < Motorboard_PrintHelpMaxTime_Ms + T + 3 * TimePerCharacter_Ms l.
Proof.
  intros Commands T l Hd HT.
  assert (H4000 : 0 <= Motorboard_PrintHelpMaxTime_Ms < 2 ^ 16)
    by (unfold Motorboard_PrintHelpMaxTime_Ms; lia).
  assert (Hval : Motorboard_PrintHelpMaxTime_Ms = 4000) by reflexivity.
  destruct (Z.eq_dec (arrived (now l) (rx l)) 0) as [Hz|Hnz].
  - rewrite (SendCommand_quiet _ _ _ Hz).
    destruct (WaitForReadySignal_returns T
                (mkLine (now l) (rx l) (tx l ++ Commands) (console l)
                        (TimePerCharacter_Ms l)))
      as (v & l' & Hl & _ & _ & _ & Hnow & Hup & _); [exact Hd|exact HT|].
    cbn [now TimePerCharacter_Ms] in *.
    exists v, l'. split; [exact Hl|]. split; [|split].
    + intros _. lia.
    + intros Hc. contradiction.
    + lia.
  - rewrite (SendCommand_chatter _ _ _ Hnz).
    destruct (WaitForReadySignal_returns Motorboard_PrintHelpMaxTime_Ms l)
      as (v1 & l1 & Hl1 & _ & _ & Htpc & Hnow1 & Hup1 & Ht1 & _);
      [exact Hd|exact H4000|].
    rewrite Hl1. destruct v1.
    + specialize (Ht1 eq_refl).
      destruct (WaitForReadySignal_returns T
                  (mkLine (now l1) (rx l1) (tx l1 ++ Commands) (console l1)
                          (TimePerCharacter_Ms l1)))
        as (v & l' & Hl & _ & _ & _ & Hnow & Hup & _);
        [cbn [TimePerCharacter_Ms]; lia|exact HT|].
      cbn [now TimePerCharacter_Ms] in *.
      exists v, l'. split; [exact Hl|]. split; [|split].
      * intros Hc. contradiction.
      * intros _ Hnever. exfalso. apply (Hnever l1). reflexivity.
      * lia.
    + exists false, l1. split; [reflexivity|]. split; [|split].
      * intros Hc. contradiction.
      * intros _ _. split; [reflexivity|lia].
      * lia.
Qed.

Lemma SendCommand_returns_in_time_witness :
  let l := mkLine 0 [(0, "x"%char)] "" "" 2 in
  exists (v : bool) (l' : Line),
    SendCommand " " 12 l = Ok v l' /\
    (arrived (now l) (rx l) = 0 ->
     now l' - now l < 12 + 2 * TimePerCharacter_Ms l) /\
    (arrived (now l) (rx l) <> 0 ->
     (forall l1, WaitForReadySignal Motorboard_PrintHelpMaxTime_Ms l
                 <> Ok true l1) ->
     v = false /\
     now l' - now l
     < Motorboard_PrintHelpMaxTime_Ms + 2 * TimePerCharacter_Ms l) /\
    now l' - now l
    < Motorboard_PrintHelpMaxTime_Ms + 12 + 3 * TimePerCharacter_Ms l.
Proof.
  apply (SendCommand_returns_in_time " " 12
           (mkLine 0 [(0, "x"%char)] "" "" 2)).
  - cbn. lia.
  - lia.
Defined.

(** C7, the counterexample.  With a byte that is no ready signal waiting
    at the call, a 12 ms timeout and a 2 ms per-character delay,
    [SendCommand] gives up after 4000 ms, not within 12 + 2; and with
    nothing waiting at the call, a 7 ms timeout and a rejected match in
    the last pass, it gives up after 10 ms, not within 7 + 2. *)
Lemma SendCommand_outlasts_timeout :
  SendCommand " " 12 (mkLine 0 [(0, "x"%char)] "" "" 2)
  = Ok false (mkLine 4000 [] "" "" 2) /\
  12 + 2 < 4000 - 0 /\
  SendCommand " " 7
    (mkLine 0 [(1, newline); (2, letter_G); (3, newline); (8, "x"%char)]
            "" "" 2)
  = Ok false (mkLine 10 [(8, "x"%char)] " " "" 2) /\
  7 + 2 < 10 - 0.
Proof.
  split; [vm_compute; reflexivity|]. split; [lia|].
  split; [vm_compute; reflexivity|lia].
Qed.

(** When the first probe fails, [DetectPing_Ms] divides by zero. *)
Lemma DetectPing_Ms_first_probe_fails (NumMeasurements : Z) (l l' : Line) :
  0 < NumMeasurements ->
  SendCommand " " SendCommand_default_Timeout_Ms l = Ok false l' ->
  DetectPing_Ms NumMeasurements l = Crash DivisionByZero.
Proof.
  intros HN Hs. unfold DetectPing_Ms, bind.
  cbn [DetectPing_Ms_loop].
  replace (0 <? NumMeasurements) with true
    by (symmetry; apply Z.ltb_lt; exact HN).
  unfold SendCommand_Time_Ms, bind, millis. rewrite Hs.
  reflexivity.
Qed.

(** C8: [DetectPing_Ms] when the board is silent.  The first probe times
    out, [NumMeasurementsDone] is still 0 when the loop is left, and the
    quotient of the final [return] is a division by zero. *)
Theorem DetectPing_Ms_divides_by_zero :
  SendCommand " " SendCommand_default_Timeout_Ms (line_with 0 2 "")
  = Ok false (mkLine 5000 [] " " "" 2) /\
  DetectPing_Ms_loop 6 5 0 0 (line_with 0 2 "")
  = Ok (0, 0) (mkLine 5000 [] " " "" 2) /\
  DetectPing_Ms 5 (line_with 0 2 "") = Crash DivisionByZero.
Proof. repeat split; vm_compute; reflexivity. Qed.

(** C10: when bytes are waiting at the call and the leading wait ends
    without a confirmed ready signal, [SendCommand] returns false in the
    state that wait left, with nothing written to the board. *)
Theorem SendCommand_gives_up_without_writing :
  forall (Commands : string) (T : Z) (l l1 : Line),
    arrived (now l) (rx l) <> 0 ->
    WaitForReadySignal Motorboard_PrintHelpMaxTime_Ms l = Ok false l1 ->
    SendCommand Commands T l = Ok false l1 /\ tx l1 = tx l.
Proof.
  intros Commands T l l1 Hc Hw.
  rewrite (SendCommand_chatter _ _ _ Hc), Hw. split; [reflexivity|].
  apply (WaitForReadySignal_frame _ _ _ _ Hw).
Qed.

Lemma SendCommand_gives_up_without_writing_witness :
  SendCommand "L 50 R 50 D 66 " 5000 (mkLine 0 [(0, "x"%char)] "" "" 2)
  = Ok false (mkLine 4000 [] "" "" 2) /\
  tx (mkLine 4000 [] "" "" 2) = tx (mkLine 0 [(0, "x"%char)] "" "" 2).
Proof.
  apply (SendCommand_gives_up_without_writing "L 50 R 50 D 66 " 5000
           (mkLine 0 [(0, "x"%char)] "" "" 2) (mkLine 4000 [] "" "" 2)).
  - cbn. lia.
  - vm_compute. reflexivity.
Defined.




End MotorsFacts.

(** * More about pour_manager.ino *)

Import PourManagerLog.

Section PourManagerMore.

(** X1: [ui32_gte] is right while the deadline has not wrapped: for a
    deadline [dur] (less than 2^30 ms) after the clock value [t0], with
    [t0 + dur] below 2^32, it answers whether [dur] ms have elapsed, also
    after the clock itself has wrapped, up to 2^32 - 2^30 ms after [t0]. *)
Theorem ui32_gte_right_before_deadline_wraps :
  forall t0 dur e : Z,
    0 <= t0 -> 0 <= dur < 2 ^ 30 -> t0 + dur < 2 ^ 32 ->
    0 <= e < 2 ^ 32 - 2 ^ 30 ->
    ui32_gte (u32 (t0 + e)) (u32 (t0 + dur)) = (dur <=? e).
Proof.
  intros t0 dur e H0 Hdur Hd He.
  apply ui32_gte_deadline_not_wrapped; assumption.
Qed.

Lemma ui32_gte_right_before_deadline_wraps_witness :
  ui32_gte (u32 (4294900000 + 100000)) (u32 (4294900000 + 60000))
  = (60000 <=? 100000).
Proof.
  apply (ui32_gte_right_before_deadline_wraps 4294900000 60000 100000); lia.
Defined.

Lemma motor_log_snoc (n : nat) :
  motor_log n ++ ["Motor ON."%string; "Motor OFF."%string]
  = motor_log (S n).
Proof.
  induction n as [|n IH]; [reflexivity|].
  cbn [motor_log app]. cbn [motor_log] in IH. rewrite IH. reflexivity.
Qed.

Lemma to_u32_range (x : spec_float) (d : Z) :
  F32.to_u32 x = Some d -> 0 <= d < 2 ^ 32.
Proof.
  destruct x as [s|s| |s m e]; cbn [F32.to_u32]; intros H;
    try discriminate H.
  - injection H as <-. lia.
  - destruct s.
    + destruct (Z.shiftl (Z.pos m) e =? 0); [|discriminate H].
      injection H as <-. lia.
    + destruct (Z.ltb_spec (Z.shiftl (Z.pos m) e) (2 ^ 32)) as [Hlt|Hge];
        [|discriminate H].
      injection H as <-. split; [|exact Hlt].
      apply Z.shiftl_nonneg. lia.
Qed.

Lemma loop_consistent (cur_time cur_hum : Z) (g g' : Globals) :
  consistent g -> loop cur_time cur_hum g = Some g' -> consistent g'.
Proof.
  intros (Hst & Hmot & Hpour & n & Hlog) H. unfold loop in H.
  unfold consistent.
  destruct (ui32_gte cur_time (next_state_update_time g)).
  2:{ injection H as <-.
      exact (conj Hst (conj Hmot (conj Hpour (ex_intro _ n Hlog)))). }
  assert (Hoff : state g <> STATE_POURING -> motor g = false).
  { intros Hne. destruct (motor g) eqn:Em; [|reflexivity].
    exfalso. apply Hne. apply Hmot. reflexivity. }
  destruct (state g =? STATE_IDLE) eqn:E0.
  { apply Z.eqb_eq in E0.
    assert (Hm : motor g = false) by (apply Hoff; rewrite E0; discriminate).
    destruct (is_low_rh MEASURER_HIGH_MEANS_DRY cur_hum);
      injection H as <-; cbn [set_schedule state motor pour_duration_ms serial];
      (split; [auto|]); (split; [rewrite Hm; split; discriminate|]);
      (split; [exact Hpour|]); exists n; exact Hlog. }
  destruct (state g =? STATE_PRE_POUR_STAGING) eqn:E1.
  { apply Z.eqb_eq in E1.
    assert (Hm : motor g = false) by (apply Hoff; rewrite E1; discriminate).
    destruct (is_low_rh MEASURER_HIGH_MEANS_DRY cur_hum).
    2:{ injection H as <-.
        cbn [set_schedule state motor pour_duration_ms serial].
        split; [auto|]. split; [rewrite Hm; split; discriminate|].
        split; [exact Hpour|]. exists n. exact Hlog. }
    assert (Hon : motor_on g
                  = println "Motor ON." (switch_on g)).
    { unfold motor_on, is_off. rewrite Hm. reflexivity. }
    rewrite Hon in H.
    cbn [println switch_on last_motor_off_moment pour_duration_ms] in H.
    assert (Hlog' : serial g ++ ["Motor ON."%string]
                    = motor_log n ++ ["Motor ON."%string]).
    { rewrite Hlog, Hm, app_nil_r. reflexivity. }
    destruct (negb (last_motor_off_moment g =? 0)).
    - destruct (rescale (pour_duration_ms g)
                  (u32 (cur_time - last_motor_off_moment g))) as [d|] eqn:Hr;
        [|discriminate H].
      apply to_u32_range in Hr.
      injection H as <-.
      cbn [set_schedule set_pour_duration state motor pour_duration_ms serial].
      split; [auto|]. split; [split; reflexivity|].
      split; [change (MAX_MOTOR_ON_TIME_S * 1000) with 120000; lia|].
      exists n. exact Hlog'.
    - injection H as <-.
      cbn [set_schedule state motor pour_duration_ms serial].
      split; [auto|]. split; [split; reflexivity|].
      split; [exact Hpour|]. exists n. exact Hlog'. }
  destruct (state g =? STATE_POURING) eqn:E2.
  { apply Z.eqb_eq in E2.
    assert (Hm : motor g = true) by (apply Hmot; exact E2).
    assert (Hoff' : motor_off g = println "Motor OFF." (switch_off g)).
    { unfold motor_off, is_on. rewrite Hm. reflexivity. }
    rewrite Hoff' in H. injection H as <-.
    cbn [set_schedule set_last_motor_off_moment println switch_off state
         motor pour_duration_ms serial].
    split; [auto|]. split; [split; discriminate|].
    split; [exact Hpour|].
    exists (S n). rewrite Hlog, Hm, app_nil_r, <- app_assoc.
    apply motor_log_snoc. }
  exfalso. apply Z.eqb_neq in E0, E1, E2. tauto.
Qed.

Lemma initial_consistent (boot : Z) : consistent (initial boot).
Proof.
  repeat split; cbn; try discriminate; try lia; auto.
  exists O. reflexivity.
Qed.

(** X2: in every state the sketch reaches from its initial globals, the
    state is one of the three, the motor is on exactly in [STATE_POURING],
    the pour duration is between 0 and the 120000 ms ceiling, and the lines
    printed are "Motor ON." and "Motor OFF." in turns, ending in "Motor ON."
    exactly when the motor is on. *)
Theorem run_keeps_consistent :
  forall (ticks : list (Z * Z)) (g g' : Globals),
    consistent g -> run ticks g = Some g' -> consistent g'.
Proof.
  induction ticks as [|[t h] ticks IH]; intros g g' Hc H; cbn [run] in H.
  - injection H as <-. exact Hc.
  - destruct (loop t h g) as [g1|] eqn:Hl; [|discriminate H].
    apply (IH g1 g'); [|exact H].
    apply (loop_consistent t h g g1 Hc Hl).
Qed.

Lemma run_keeps_consistent_witness :
  consistent
    (mkGlobals STATE_POURING (u32 (181000 + 20000)) 0 20000 true
               ["Motor ON."%string]).
Proof.
  apply (run_keeps_consistent [(1000, 400); (181000, 400)] (initial 1000)).
  - apply initial_consistent.
  - reflexivity.
Defined.

(** X3: while no reading is dry the sketch stays in [STATE_IDLE]: after any
    number of passes the state is still [STATE_IDLE], and the motor, the
    lines printed, the pour duration and the record of the last pour are
    what they were. *)
Theorem idle_while_not_dry :
  forall (ticks : list (Z * Z)) (g : Globals),
    state g = STATE_IDLE ->
    Forall (fun tick => is_low_rh MEASURER_HIGH_MEANS_DRY (snd tick) = false)
           ticks ->
    exists g',
      run ticks g = Some g' /\
      state g' = STATE_IDLE /\
      motor g' = motor g /\
      serial g' = serial g /\
      pour_duration_ms g' = pour_duration_ms g /\
      last_motor_off_moment g' = last_motor_off_moment g.
Proof.
  induction ticks as [|[t h] ticks IH]; intros g Hs Hall.
  - exists g. repeat split; try reflexivity. exact Hs.
  - inversion Hall as [|x xs Hh Hrest]; subst x xs. cbn [snd] in Hh.
    cbn [run]. unfold loop. rewrite Hs, Hh. cbn [Z.eqb STATE_IDLE].
    destruct (ui32_gte t (next_state_update_time g)).
    + destruct (IH (set_schedule STATE_IDLE
                      (u32 (t + IDLE_DURATION_S * 1000)) g))
        as (g' & Hr & H1 & H2 & H3 & H4 & H5); [reflexivity|exact Hrest|].
      exists g'. rewrite Hr. repeat split; assumption.
    + destruct (IH g Hs Hrest) as (g' & Hr & Hg').
      exists g'. rewrite Hr. split; [reflexivity|exact Hg'].
Qed.

Lemma idle_while_not_dry_witness :
  exists g',
    run [(1000, 300); (61000, -1); (121000, 318)] (initial 1000) = Some g' /\
    state g' = STATE_IDLE /\
    motor g' = motor (initial 1000) /\
    serial g' = serial (initial 1000) /\
    pour_duration_ms g' = pour_duration_ms (initial 1000) /\
    last_motor_off_moment g' = last_motor_off_moment (initial 1000).
Proof.
  apply (idle_while_not_dry [(1000, 300); (61000, -1); (121000, 318)]
           (initial 1000)).
  - reflexivity.
  - repeat constructor.
Defined.

(** X4: a dry reading that does not last is rejected.  From [STATE_IDLE], a
    dry reading at the idle deadline starts the staging; when the reading
    at the staging deadline is no longer dry the sketch is back in
    [STATE_IDLE], due [IDLE_DURATION_S] later, and the motor, the lines
    printed, the pour duration and the record of the last pour are what
    they were. *)
Theorem staging_rejects_transient_dryness :
  forall (g0 : Globals) (quiet1 quiet2 : list (Z * Z)) (t1 h1 t2 h2 : Z),
    state g0 = STATE_IDLE ->
    Forall (fun q => ui32_gte (fst q) (next_state_update_time g0) = false)
           quiet1 ->
    ui32_gte t1 (next_state_update_time g0) = true ->
    is_low_rh MEASURER_HIGH_MEANS_DRY h1 = true ->
    Forall (fun q => ui32_gte (fst q)
                       (u32 (t1 + PRE_POUR_DURATION_S * 1000)) = false)
           quiet2 ->
    ui32_gte t2 (u32 (t1 + PRE_POUR_DURATION_S * 1000)) = true ->
    is_low_rh MEASURER_HIGH_MEANS_DRY h2 = false ->
    run ((quiet1 ++ [(t1, h1)]) ++ quiet2 ++ [(t2, h2)]) g0
    = Some (mkGlobals STATE_IDLE (u32 (t2 + IDLE_DURATION_S * 1000))
                      (last_motor_off_moment g0) (pour_duration_ms g0)
                      (motor g0) (serial g0)).
Proof.
  intros g0 quiet1 quiet2 t1 h1 t2 h2 Hs Hq1 Ht1 Hd1 Hq2 Ht2 Hd2.
  rewrite run_app, (run_until quiet1 (t1, h1) g0 Hq1). cbn [fst snd].
  rewrite (loop_idle_dry t1 h1 g0 Hs Ht1 Hd1).
  rewrite (run_until quiet2 (t2, h2)
             (set_schedule STATE_PRE_POUR_STAGING
                (u32 (t1 + PRE_POUR_DURATION_S * 1000)) g0) Hq2).
  cbn [fst snd]. unfold loop.
  cbn [set_schedule state next_state_update_time].
  rewrite Ht2, Hd2. reflexivity.
Qed.

Lemma staging_rejects_transient_dryness_witness :
  run (([] ++ [(1000, 400)]) ++ [(11000, 400)] ++ [(181000, 317)])
      (initial 1000)
  = Some (mkGlobals STATE_IDLE (u32 (181000 + IDLE_DURATION_S * 1000))
                    (last_motor_off_moment (initial 1000))
                    (pour_duration_ms (initial 1000))
                    (motor (initial 1000)) (serial (initial 1000))).
Proof.
  apply (staging_rejects_transient_dryness (initial 1000) [] [(11000, 400)]
           1000 400 181000 317).
  - reflexivity.
  - constructor.
  - reflexivity.
  - reflexivity.
  - repeat constructor.
  - reflexivity.
  - reflexivity.
Defined.

(** X5: the value 0 of [last_motor_off_moment] stands for "no pour yet".  A
    pour that ends in the pass where [millis()] returned 0 is recorded as
    0, and the pour after it is not rescaled: it keeps the pour duration,
    whatever the length of the cycle in between. *)
Theorem pour_ending_at_clock_zero_is_forgotten :
  forall (g : Globals) (h t1 h1 t2 h2 : Z),
    state g = STATE_POURING ->
    ui32_gte 0 (next_state_update_time g) = true ->
    ui32_gte t1 (u32 (0 + POST_POUR_DURATION_S * 1000)) = true ->
    is_low_rh MEASURER_HIGH_MEANS_DRY h1 = true ->
    ui32_gte t2 (u32 (t1 + PRE_POUR_DURATION_S * 1000)) = true ->
    is_low_rh MEASURER_HIGH_MEANS_DRY h2 = true ->
    exists g1 g3,
      loop 0 h g = Some g1 /\
      last_motor_off_moment g1 = 0 /\
      run [(0, h); (t1, h1); (t2, h2)] g = Some g3 /\
      state g3 = STATE_POURING /\
      pour_duration_ms g3 = pour_duration_ms g /\
      next_state_update_time g3 = u32 (t2 + pour_duration_ms g).
Proof.
  intros g h t1 h1 t2 h2 Hs H0 Ht1 Hd1 Ht2 Hd2.
  set (g1 := set_schedule STATE_IDLE (u32 (0 + POST_POUR_DURATION_S * 1000))
               (set_last_motor_off_moment 0 (motor_off g))).
  assert (Hl0 : loop 0 h g = Some g1) by (apply loop_pouring; assumption).
  set (g2 := set_schedule STATE_PRE_POUR_STAGING
               (u32 (t1 + PRE_POUR_DURATION_S * 1000)) g1).
  assert (Hl1 : loop t1 h1 g1 = Some g2)
    by (apply loop_idle_dry; [reflexivity|exact Ht1|exact Hd1]).
  assert (Hl2 : loop t2 h2 g2
                = Some (set_schedule STATE_POURING
                          (u32 (t2 + pour_duration_ms g2)) (motor_on g2)))
    by (apply loop_staging_dry_first;
        [reflexivity|exact Ht2|exact Hd2|reflexivity]).
  assert (Hp : pour_duration_ms g2 = pour_duration_ms g).
  { unfold g2, g1, motor_off. destruct (is_on g); reflexivity. }
  exists g1. eexists. split; [exact Hl0|]. split; [reflexivity|].
  split. { cbn [run]. rewrite Hl0, Hl1, Hl2. reflexivity. }
  cbn [set_schedule state next_state_update_time pour_duration_ms].
  split; [reflexivity|].
  assert (Hp' : pour_duration_ms (motor_on g2) = pour_duration_ms g).
  { rewrite <- Hp. unfold motor_on. destruct (is_off g2); reflexivity. }
  split; [exact Hp'|]. rewrite Hp. reflexivity.
Qed.

Lemma pour_ending_at_clock_zero_is_forgotten_witness :
  exists g1 g3,
    loop 0 400 (mkGlobals STATE_POURING 4294960000 777 30000 true []) = Some g1 /\
    last_motor_off_moment g1 = 0 /\
    run [(0, 400); (900000, 400); (1080000, 400)]
        (mkGlobals STATE_POURING 4294960000 777 30000 true []) = Some g3 /\
    state g3 = STATE_POURING /\
    pour_duration_ms g3
    = pour_duration_ms (mkGlobals STATE_POURING 4294960000 777 30000 true []) /\
    next_state_update_time g3
    = u32 (1080000
           + pour_duration_ms
               (mkGlobals STATE_POURING 4294960000 777 30000 true [])).
Proof.
  apply (pour_ending_at_clock_zero_is_forgotten
           (mkGlobals STATE_POURING 4294960000 777 30000 true [])
           400 900000 400 1080000 400); reflexivity.
Defined.

(** Multiplying by a power of two only moves the exponent. *)
Lemma mul_power_of_two (m : positive) (e k : Z) :
  digits2_pos m = 24%positive -> -149 <= e + k + 23 <= 104 ->
  F32.mul (S754_finite false m e) (S754_finite false 8388608 k)
  = S754_finite false m (e + k + 23).
Proof.
  intros Hm He. unfold F32.mul, SFmul. cbn [xorb].
  rewrite Pos.mul_comm. cbn [Pos.mul].
  unfold binary_round_aux, shr_fexp. cbn [shr_record_of_loc].
  assert (Hshift : forall mm, Zdigits2 (Zpos mm) = 47 ->
                   fexp 24 128 (Zdigits2 (Zpos mm) + (e + k)) - (e + k)
                   = 23).
  { intros mm Hmm. rewrite Hmm. unfold fexp, emin. lia. }
  rewrite Hshift.
  2:{ cbn [Zdigits2 digits2_pos]. rewrite Hm. reflexivity. }
  cbn [shr SpecFloat.iter_pos shr_1 orb shr_m shr_r shr_s loc_of_shr_record
       round_nearest_even].
  assert (Hstay : fexp F32.prec F32.emax (Zdigits2 (Z.pos m) + (e + k + 23))
                  - (e + k + 23) = 0).
  { unfold fexp, emin, F32.prec, F32.emax, Zdigits2. rewrite Hm. lia. }
  rewrite Hstay. cbn [shr shr_m].
  replace (e + k + 23 <=? F32.emax - F32.prec) with true; [reflexivity|].
  symmetry. apply Z.leb_le. unfold F32.emax, F32.prec. lia.
Qed.

(** Rescaling by a ratio that is a power of two, 2^[j]. *)
Lemma rescale_by_power_of_two (pour observed j : Z) :
  0 <= pour < 2 ^ 23 -> -30 <= j <= 9 ->
  F32.div (F32.of_Z (u32 (DESIRED_POUR_CYCLE_S * 1000))) (F32.of_Z observed)
  = S754_finite false 8388608 (j - 23) ->
  rescale pour observed = Some (Z.shiftl pour j).
Proof.
  intros Hp Hj Hratio. unfold rescale. rewrite Hratio.
  destruct pour as [|p|p]; [|clear Hratio|lia].
  { rewrite Z.shiftl_0_l. reflexivity. }
  pose proof (digits2_pos_bound p) as Hsize.
  assert (Hk : Zpos (digits2_pos p) < 24).
  { apply (Z.pow_lt_mono_r_iff 2); lia. }
  set (d := Z.to_pos (24 - Zpos (digits2_pos p))).
  assert (Hd : Zpos d = 24 - Zpos (digits2_pos p))
    by (unfold d; rewrite Z2Pos.id; lia).
  rewrite (of_Z_exact p d) by lia.
  rewrite mul_power_of_two.
  2:{ rewrite digits2_pos_iter_xO. lia. }
  2:{ lia. }
  unfold F32.to_u32.
  assert (Hval : Z.shiftl (Zpos (Pos.iter xO p d)) (Zneg d + (j - 23) + 23)
                 = Z.shiftl (Zpos p) j).
  { rewrite Zpos_iter_xO, <- Z.shiftl_mul_pow2 by lia.
    rewrite Z.shiftl_shiftl by lia. f_equal. lia. }
  rewrite Hval.
  assert (Hbound : 0 <= Z.shiftl (Zpos p) j < 2 ^ 32).
  { split; [apply Z.shiftl_nonneg; lia|].
    destruct (Z_le_gt_dec 0 j) as [Hpos|Hneg].
    - rewrite Z.shiftl_mul_pow2 by lia.
      assert (2 ^ j <= 2 ^ 9) by (apply Z.pow_le_mono_r; lia).
      assert (0 < 2 ^ j) by (apply Z.pow_pos_nonneg; lia).
      nia.
    - rewrite Z.shiftl_div_pow2 by lia.
      assert (0 < 2 ^ (- j)) by (apply Z.pow_pos_nonneg; lia).
      apply Z.div_lt_upper_bound; [lia|]. nia. }
  replace (Z.shiftl (Z.pos p) j <? 2 ^ 32) with true; [reflexivity|].
  symmetry. apply Z.ltb_lt. lia.
Qed.

(** X6: when the observed cycle is the desired cycle times or over a power
    of two, the rescaling of [loop] is exact: for an observed cycle of
    86400000 * 2^-j ms (j from -5 to 9) a pour duration below 2^23 ms
    becomes the duration times 2^j, rounded down when j is negative.  An
    on-target cycle leaves it as it is, a cycle twice as long halves it. *)
Theorem rescale_exact_for_powers_of_two :
  forall pour j : Z,
    0 <= pour < 2 ^ 23 -> -5 <= j <= 9 ->
    rescale pour (Z.shiftl 86400000 (- j)) = Some (Z.shiftl pour j).
Proof.
  intros pour j Hp Hj.
  assert (Hcases : j = -5 \/ j = -4 \/ j = -3 \/ j = -2 \/ j = -1 \/ j = 0
                   \/ j = 1 \/ j = 2 \/ j = 3 \/ j = 4 \/ j = 5 \/ j = 6
                   \/ j = 7 \/ j = 8 \/ j = 9) by lia.
  repeat (destruct Hcases as [->|Hcases]); try subst j;
    (apply rescale_by_power_of_two; [exact Hp|lia|vm_compute; reflexivity]).
Qed.

Lemma rescale_exact_for_powers_of_two_witness :
  rescale 20001 (Z.shiftl 86400000 (- -1)) = Some (Z.shiftl 20001 (-1)).
Proof.
  apply (rescale_exact_for_powers_of_two 20001 (-1)); lia.
Defined.

End PourManagerMore.

(** * More about Motors.cpp *)

Import MotorLink.

Section MotorsMore.

(** X7: [GetTimePassed_Ms] is right across the wrap of [millis()]: for a
    start taken at [t0] ms since boot and less than 2^32 ms ago it returns
    the time elapsed since, and leaves the line alone.  An end time given
    as 0 counts as not given: the clock is read instead. *)
Theorem GetTimePassed_Ms_across_wrap :
  forall (t0 t1 : Z) (l : Line),
    0 <= now l - t0 < 2 ^ 32 ->
    0 <= t1 - t0 < 2 ^ 32 ->
    GetTimePassed_Ms (u32 t0) 0 l = Ok (now l - t0) l /\
    (u32 t1 <> 0 -> GetTimePassed_Ms (u32 t0) (u32 t1) l = Ok (t1 - t0) l) /\
    (u32 t1 = 0 -> GetTimePassed_Ms (u32 t0) (u32 t1) l = Ok (now l - t0) l).
Proof.
  intros t0 t1 l Hnow Hend.
  assert (H0 : GetTimePassed_Ms (u32 t0) 0 l = Ok (now l - t0) l).
  { unfold GetTimePassed_Ms, millis, ret, bind. cbn [Z.eqb].
    rewrite elapsed_exact by exact Hnow. reflexivity. }
  split; [exact H0|]. split.
  - intros Hne. unfold GetTimePassed_Ms, ret, bind.
    apply Z.eqb_neq in Hne. rewrite Hne.
    rewrite elapsed_exact by exact Hend. reflexivity.
  - intros Hz. rewrite Hz. exact H0.
Qed.

Lemma GetTimePassed_Ms_across_wrap_witness :
  GetTimePassed_Ms (u32 4294967000) 0 (mkLine 4294967500 [] "" "" 2)
  = Ok (4294967500 - 4294967000) (mkLine 4294967500 [] "" "" 2) /\
  (u32 4294967400 <> 0 ->
   GetTimePassed_Ms (u32 4294967000) (u32 4294967400)
     (mkLine 4294967500 [] "" "" 2)
   = Ok (4294967400 - 4294967000) (mkLine 4294967500 [] "" "" 2)) /\
  (u32 4294967400 = 0 ->
   GetTimePassed_Ms (u32 4294967000) (u32 4294967400)
     (mkLine 4294967500 [] "" "" 2)
   = Ok (4294967500 - 4294967000) (mkLine 4294967500 [] "" "" 2)).
Proof.
  apply (GetTimePassed_Ms_across_wrap 4294967000 4294967400
           (mkLine 4294967500 [] "" "" 2)); cbn; lia.
Defined.

Lemma TimePerCharacter_for_cases :
  forall Baud : Z,
    0 <= Baud < 2 ^ 32 ->
    (Baud < 10 -> TimePerCharacter_for Baud = None) /\
    (10 <= Baud ->
     exists d, TimePerCharacter_for Baud = Some d /\ 1 <= d <= 255 /\
               (40 <= Baud ->
                d = 1000 / (Baud / 10) + 1 /\ 1000 < d * (Baud / 10))).
Proof.
  intros Baud HB. unfold TimePerCharacter_for. split.
  - intros Hlt. rewrite Z.div_small by lia. reflexivity.
  - intros Hge.
    assert (Hq : 1 <= Baud / 10) by (apply Z.div_le_lower_bound; lia).
    replace (Baud / 10 =? 0) with false by (symmetry; apply Z.eqb_neq; lia).
    eexists. split; [reflexivity|].
    assert (Hdiv : 0 <= 1000 / (Baud / 10) <= 1000).
    { split; [apply Z.div_pos; lia|].
      apply Z.div_le_upper_bound; [lia|]. nia. }
    rewrite (u32_small (1000 / (Baud / 10) + 1)) by lia.
    destruct (Z_le_gt_dec 4 (Baud / 10)) as [H4|H3].
    + assert (Hsmall : 1000 / (Baud / 10) <= 250).
      { apply Z.div_le_upper_bound; [lia|]. nia. }
      unfold u8. rewrite Z.mod_small by lia. split; [lia|].
      intros _. split; [reflexivity|].
      pose proof (Z.mul_succ_div_gt 1000 (Baud / 10)) as Hgt.
      unfold Z.succ in Hgt. nia.
    + assert (Hc : Baud / 10 = 1 \/ Baud / 10 = 2 \/ Baud / 10 = 3) by lia.
      split.
      * destruct Hc as [Hc|[Hc|Hc]]; rewrite Hc; cbn; lia.
      * intros H40. exfalso.
        assert (4 <= Baud / 10) by (apply Z.div_le_lower_bound; lia). lia.
Qed.

(** X8: the per-character delay that [SetupMotorboardCommunication]
    computes.  Below 10 baud the division is by zero.  From 10 baud on the
    delay is between 1 and 255 ms, so the waiting loops advance; from 40
    baud on nothing is lost in the [uint8_t] and the delay is longer than
    the time of one character of ten bits. *)
Theorem TimePerCharacter_for_range :
  forall Baud : Z,
    0 <= Baud < 2 ^ 32 ->
    (Baud < 10 -> TimePerCharacter_for Baud = None) /\
    (10 <= Baud ->
     exists d, TimePerCharacter_for Baud = Some d /\ 1 <= d <= 255 /\
               (40 <= Baud ->
                d = 1000 / (Baud / 10) + 1 /\ 1000 < d * (Baud / 10))).
Proof. exact TimePerCharacter_for_cases. Qed.

Lemma TimePerCharacter_for_range_witness :
  exists d, TimePerCharacter_for 57600 = Some d /\ 1 <= d <= 255 /\
            (40 <= 57600 ->
             d = 1000 / (57600 / 10) + 1 /\ 1000 < d * (57600 / 10)).
Proof.
  apply (proj2 (TimePerCharacter_for_range 57600 ltac:(lia))). lia.
Defined.

Lemma advance_advance (a b : Z) (l : Line) :
  advance a (advance b l) = advance (b + a) l.
Proof. unfold advance. cbn. rewrite Z.add_assoc. reflexivity. Qed.

Lemma advance_zero (l : Line) : advance 0 l = l.
Proof. destruct l. unfold advance. cbn. rewrite Z.add_0_r. reflexivity. Qed.

Lemma idle_passes_done (T d e : Z) :
  1 <= d -> T <= e -> idle_passes T d e = 0.
Proof.
  intros Hd He. unfold idle_passes.
  assert ((T - e + d - 1) / d <= 0).
  { apply Z.lt_succ_r. apply Z.div_lt_upper_bound; lia. }
  lia.
Qed.

Lemma idle_passes_step (T d e : Z) :
  1 <= d -> e < T -> idle_passes T d e = idle_passes T d (e + d) + 1.
Proof.
  intros Hd He. unfold idle_passes.
  replace (T - e + d - 1) with ((T - (e + d) + d - 1) + 1 * d) by ring.
  rewrite Z.div_add by lia.
  assert (0 <= (T - (e + d) + d - 1) / d).
  { apply Z.div_pos; lia. }
  lia.
Qed.

(** On a line where nothing arrives the [while] just waits. *)
Lemma wait_loop_silent (fuel : nat) :
  forall (T t0 : Z) (Chars : ascii * ascii * ascii) (l : Line),
    rx l = [] ->
    1 <= TimePerCharacter_Ms l ->
    T + TimePerCharacter_Ms l <= 2 ^ 32 ->
    0 <= now l - t0 < T + TimePerCharacter_Ms l ->
    idle_passes T (TimePerCharacter_Ms l) (now l - t0) < Z.of_nat fuel ->
    WaitForReadySignal_loop fuel T (u32 t0) Chars l
    = Ok false
         (advance (TimePerCharacter_Ms l
                   * idle_passes T (TimePerCharacter_Ms l) (now l - t0)) l).
Proof.
  induction fuel as [|fuel IH]; intros T t0 [[c0 c1] c2] l Hrx Hd Hw He Hf.
  { unfold idle_passes in Hf. cbn in Hf. lia. }
  rewrite loop_unfold, elapsed_exact by lia.
  destruct (Z.ltb_spec (now l - t0) T) as [Hlt|Hge].
  - rewrite body_idle by (rewrite Hrx; reflexivity).
    rewrite (idle_passes_step T _ _ Hd Hlt) in Hf |- *.
    rewrite (IH T t0 (c0, c1, c2) (advance (TimePerCharacter_Ms l) l));
      cbn [advance now rx TimePerCharacter_Ms]; try assumption; try lia.
    + rewrite advance_advance.
      replace (now l + TimePerCharacter_Ms l - t0)
        with (now l - t0 + TimePerCharacter_Ms l) by ring.
      f_equal. f_equal. ring.
    + replace (now l + TimePerCharacter_Ms l - t0)
        with (now l - t0 + TimePerCharacter_Ms l) by ring.
      lia.
  - rewrite (idle_passes_done T _ _ Hd Hge), Z.mul_0_r, advance_zero.
    reflexivity.
Qed.

(** X9: when the board sends nothing, a wait costs its timeout rounded up
    to a whole number of per-character delays, no more and no less:
    [WaitForReadySignal] returns false after that time, and so does
    [SendCommand], which has written the command once. *)
Theorem silent_board_costs_the_timeout :
  forall (Commands : string) (T : Z) (l : Line),
    rx l = [] ->
    1 <= TimePerCharacter_Ms l <= 255 ->
    0 <= T < 2 ^ 16 ->
    let d := TimePerCharacter_Ms l in
    WaitForReadySignal T l = Ok false (advance (d * ((T + d - 1) / d)) l) /\
    SendCommand Commands T l
    = Ok false
         (mkLine (now l + d * ((T + d - 1) / d)) [] (tx l ++ Commands)
                 (console l) d) /\
    T <= d * ((T + d - 1) / d) < T + d.
Proof.
  intros Commands T l Hrx Hd HT d.
  assert (Hd' : 1 <= d <= 255) by exact Hd.
  assert (Hceil : 0 <= (T + d - 1) / d <= T).
  { split; [apply Z.div_pos; lia|].
    destruct (Z.eq_dec T 0) as [->|Hne].
    - rewrite Z.div_small by lia. lia.
    - apply Z.div_le_upper_bound; [lia|]. nia. }
  assert (Hpasses : forall e, e = 0 ->
            idle_passes T d e = (T + d - 1) / d).
  { intros e ->. unfold idle_passes. rewrite Z.sub_0_r. lia. }
  assert (Hwait : forall l0 : Line,
            rx l0 = [] -> TimePerCharacter_Ms l0 = d ->
            WaitForReadySignal T l0
            = Ok false (advance (d * ((T + d - 1) / d)) l0)).
  { intros l0 Hrx0 Hd0. unfold WaitForReadySignal, bind, millis.
    rewrite (wait_loop_silent _ T (now l0) _ l0); rewrite ?Hd0;
      try assumption; try lia.
    - rewrite Hpasses by ring. reflexivity.
    - rewrite Hpasses by ring. lia. }
  split; [apply Hwait; [exact Hrx|reflexivity]|]. split.
  - rewrite SendCommand_quiet by (rewrite Hrx; reflexivity).
    rewrite Hwait by (cbn; auto). unfold advance. cbn. rewrite Hrx.
    reflexivity.
  - pose proof (Z.mul_div_le (T + d - 1) d ltac:(lia)) as Hle.
    pose proof (Z.mul_succ_div_gt (T + d - 1) d ltac:(lia)) as Hgt.
    unfold Z.succ in Hgt. lia.
Qed.

Lemma silent_board_costs_the_timeout_witness :
  WaitForReadySignal 5000 (mkLine 0 [] "" "" 3)
  = Ok false (advance (3 * ((5000 + 3 - 1) / 3)) (mkLine 0 [] "" "" 3)) /\
  SendCommand "L 0 R 0 D 66 " 5000 (mkLine 0 [] "" "" 3)
  = Ok false
       (mkLine (0 + 3 * ((5000 + 3 - 1) / 3)) [] ("" ++ "L 0 R 0 D 66 ")
               "" 3) /\
  5000 <= 3 * ((5000 + 3 - 1) / 3) < 5000 + 3.
Proof.
  apply (silent_board_costs_the_timeout "L 0 R 0 D 66 " 5000
           (mkLine 0 [] "" "" 3)).
  - reflexivity.
  - cbn. lia.
  - lia.
Defined.

(** What a call of [SendCommand] does to the line, in every case. *)
Lemma SendCommand_spec (Commands : string) (T : Z) (l : Line) :
  1 <= TimePerCharacter_Ms l <= 255 -> 0 <= T < 2 ^ 16 ->
  exists (v : bool) (l' : Line),
    SendCommand Commands T l = Ok v l' /\
    TimePerCharacter_Ms l' = TimePerCharacter_Ms l /\
    console l' = console l /\
    now l <= now l' /\
    now l' - now l
    < Motorboard_PrintHelpMaxTime_Ms + T + 3 * TimePerCharacter_Ms l /\
    (tx l' = tx l \/ tx l' = (tx l ++ Commands)%string) /\
    (v = true -> tx l' = (tx l ++ Commands)%string) /\
    (v = true -> arrived (now l') (rx l') = 0) /\
    (v = true -> T > 0) /\
    exists consumed, rx l = consumed ++ rx l'.
Proof.
  intros Hd HT.
  assert (H4000 : 0 <= Motorboard_PrintHelpMaxTime_Ms < 2 ^ 16)
    by (unfold Motorboard_PrintHelpMaxTime_Ms; lia).
  assert (Hval : Motorboard_PrintHelpMaxTime_Ms = 4000) by reflexivity.
  assert (Hsecond : forall l1 : Line,
            TimePerCharacter_Ms l1 = TimePerCharacter_Ms l ->
            exists v l',
              WaitForReadySignal T
                (mkLine (now l1) (rx l1) (tx l1 ++ Commands) (console l1)
                        (TimePerCharacter_Ms l1)) = Ok v l' /\
              TimePerCharacter_Ms l' = TimePerCharacter_Ms l /\
              console l' = console l1 /\
              now l1 <= now l' /\
              now l' - now l1 < T + 2 * TimePerCharacter_Ms l /\
              tx l' = (tx l1 ++ Commands)%string /\
              (v = true -> arrived (now l') (rx l') = 0) /\
              (v = true -> T > 0) /\
              exists consumed, rx l1 = consumed ++ rx l').
  { intros l1 Hd1.
    destruct (WaitForReadySignal_returns T
                (mkLine (now l1) (rx l1) (tx l1 ++ Commands) (console l1)
                        (TimePerCharacter_Ms l1)))
      as (v & l' & Hl & Htx & Hco & Htpc & Hnow & Hup & Ht & Hf & cs & Hcs);
      [cbn [TimePerCharacter_Ms]; lia|exact HT|].
    cbn [now rx tx console TimePerCharacter_Ms] in *.
    exists v, l'. split; [exact Hl|]. rewrite Hd1 in *.
    repeat split; try assumption; try lia.
    - intros Hv. subst v.
      apply WaitForReadySignal_sound in Hl; [|cbn; lia].
      destruct Hl as (_ & _ & _ & _ & Harr & _). exact Harr.
    - intros Hv. specialize (Ht Hv). subst v.
      apply WaitForReadySignal_sound in Hl; [|cbn; lia].
      destruct Hl as (_ & _ & _ & _ & _ & Hlate & _).
      cbn [now TimePerCharacter_Ms] in Hlate. lia.
    - exists cs. exact Hcs. }
  destruct (Z.eq_dec (arrived (now l) (rx l)) 0) as [Hz|Hnz].
  - rewrite (SendCommand_quiet _ _ _ Hz).
    destruct (Hsecond l eq_refl)
      as (v & l' & Hl & Htpc & Hco & Hnow & Hup & Htx & Harr & HT0 & Hcs).
    exists v, l'. split; [exact Hl|].
    repeat split; try assumption; try lia; auto.
  - rewrite (SendCommand_chatter _ _ _ Hnz).
    destruct (WaitForReadySignal_returns Motorboard_PrintHelpMaxTime_Ms l)
      as (v1 & l1 & Hl1 & Htx1 & Hco1 & Htpc1 & Hnow1 & Hup1 & Ht1 & _
          & cs1 & Hcs1);
      [exact Hd|exact H4000|].
    rewrite Hl1. destruct v1.
    + specialize (Ht1 eq_refl).
      destruct (Hsecond l1 Htpc1)
        as (v & l' & Hl & Htpc & Hco & Hnow & Hup & Htx & Harr & HT0
            & cs & Hcs).
      exists v, l'. split; [exact Hl|].
      rewrite Htx1 in Htx. rewrite Hco1 in Hco.
      repeat split; try assumption; try lia; auto.
      exists (cs1 ++ cs). rewrite Hcs1, Hcs, app_assoc. reflexivity.
    + exists false, l1. split; [reflexivity|].
      repeat split; try assumption; try lia; auto; try discriminate.
      exists cs1. exact Hcs1.
Qed.

(** X10: [SendCommand] always returns, and it writes the command at most
    once, untouched: afterwards [tx] is what it was, or that followed by
    the command.  When it returns true the command was written, and nothing
    is waiting on the line; it never returns true with a timeout of 0.  It
    reads received bytes in order and changes neither the per-character
    delay nor the console. *)
Theorem SendCommand_writes_at_most_once :
  forall (Commands : string) (T : Z) (l : Line),
    1 <= TimePerCharacter_Ms l <= 255 -> 0 <= T < 2 ^ 16 ->
    exists (v : bool) (l' : Line),
      SendCommand Commands T l = Ok v l' /\
      (tx l' = tx l \/ tx l' = (tx l ++ Commands)%string) /\
      (v = true ->
       tx l' = (tx l ++ Commands)%string /\
       arrived (now l') (rx l') = 0 /\ T > 0) /\
      (exists consumed, rx l = consumed ++ rx l') /\
      TimePerCharacter_Ms l' = TimePerCharacter_Ms l /\
      console l' = console l.
Proof.
  intros Commands T l Hd HT.
  destruct (SendCommand_spec Commands T l Hd HT)
    as (v & l' & Hl & Htpc & Hco & _ & _ & Htx & Hwr & Harr & HT0 & Hcs).
  exists v, l'. split; [exact Hl|]. split; [exact Htx|].
  split; [intros Hv; auto|]. split; [exact Hcs|]. split; assumption.
Qed.

Lemma SendCommand_writes_at_most_once_witness :
  exists (v : bool) (l' : Line),
    SendCommand "L 0 R 0 D 66 " 100
      (mkLine 0 [(3, newline); (5, letter_G); (9, newline)] "" "" 2)
    = Ok v l' /\
    (tx l' = ""%string \/ tx l' = ("" ++ "L 0 R 0 D 66 ")%string) /\
    (v = true ->
     tx l' = ("" ++ "L 0 R 0 D 66 ")%string /\
     arrived (now l') (rx l') = 0 /\ 100 > 0) /\
    (exists consumed,
       [(3, newline); (5, letter_G); (9, newline)] = consumed ++ rx l') /\
    TimePerCharacter_Ms l' = 2 /\
    console l' = ""%string.
Proof.
  apply (SendCommand_writes_at_most_once "L 0 R 0 D 66 " 100
           (mkLine 0 [(3, newline); (5, letter_G); (9, newline)] "" "" 2)).
  - cbn. lia.
  - lia.
Defined.

Lemma SendCommand_Time_Ms_spec (Command : string) (l : Line) :
  1 <= TimePerCharacter_Ms l <= 255 ->
  exists (v : bool) (l' : Line),
    SendCommand Command SendCommand_default_Timeout_Ms l = Ok v l' /\
    SendCommand_Time_Ms Command l = Ok (v, now l' - now l) l' /\
    0 <= now l' - now l < 9000 + 3 * TimePerCharacter_Ms l /\
    TimePerCharacter_Ms l' = TimePerCharacter_Ms l /\
    console l' = console l.
Proof.
  intros Hd.
  destruct (SendCommand_spec Command SendCommand_default_Timeout_Ms l Hd)
    as (v & l' & Hl & Htpc & Hco & Hnow & Hup & _);
    [unfold SendCommand_default_Timeout_Ms; lia|].
  change Motorboard_PrintHelpMaxTime_Ms with 4000 in Hup.
  change SendCommand_default_Timeout_Ms with 5000 in Hup.
  exists v, l'. split; [exact Hl|]. split.
  - unfold SendCommand_Time_Ms, bind, millis. rewrite Hl.
    unfold GetTimePassed_Ms, bind, millis, ret. cbn [Z.eqb].
    rewrite elapsed_exact by lia. reflexivity.
  - repeat split; try assumption; lia.
Qed.

(** X11: [SendCommand_Time_Ms] sends like [SendCommand] with the default
    timeout and reports exactly the time the call took, also when
    [millis()] wraps during the call; that is always less than 9000 ms
    plus three per-character delays. *)
Theorem SendCommand_Time_Ms_reports_elapsed :
  forall (Command : string) (l : Line),
    1 <= TimePerCharacter_Ms l <= 255 ->
    exists (v : bool) (l' : Line),
      SendCommand Command SendCommand_default_Timeout_Ms l = Ok v l' /\
      SendCommand_Time_Ms Command l = Ok (v, now l' - now l) l' /\
      0 <= now l' - now l < 9000 + 3 * TimePerCharacter_Ms l.
Proof.
  intros Command l Hd.
  destruct (SendCommand_Time_Ms_spec Command l Hd)
    as (v & l' & H1 & H2 & H3 & _).
  exists v, l'. auto.
Qed.

Lemma SendCommand_Time_Ms_reports_elapsed_witness :
  exists (v : bool) (l' : Line),
    SendCommand " " SendCommand_default_Timeout_Ms
      (mkLine 4294967290 [(4294967293, newline); (4294967295, letter_G);
                          (4294967299, newline)] "" "" 2)
    = Ok v l' /\
    SendCommand_Time_Ms " "
      (mkLine 4294967290 [(4294967293, newline); (4294967295, letter_G);
                          (4294967299, newline)] "" "" 2)
    = Ok (v, now l' - 4294967290) l' /\
    0 <= now l' - 4294967290 < 9000 + 3 * 2.
Proof.
  apply (SendCommand_Time_Ms_reports_elapsed " "
           (mkLine 4294967290 [(4294967293, newline); (4294967295, letter_G);
                               (4294967299, newline)] "" "" 2)).
  cbn. lia.
Defined.

(** The [for] of [DetectPing_Ms]: it stops at the first probe that fails,
    and the time it has summed up is that of the probes done. *)
Lemma DetectPing_Ms_loop_spec (fuel : nat) :
  forall (N Done TP : Z) (l : Line),
    1 <= TimePerCharacter_Ms l <= 255 ->
    0 <= Done <= N -> N <= 255 ->
    0 <= TP <= Done * 9765 ->
    N - Done < Z.of_nat fuel ->
    exists (TP' Done' : Z) (l' : Line),
      DetectPing_Ms_loop fuel N Done TP l = Ok (TP', Done') l' /\
      Done <= Done' <= N /\
      0 <= TP' <= Done' * 9765 /\
      TimePerCharacter_Ms l' = TimePerCharacter_Ms l /\
      console l' = console l /\
      (Done' = Done ->
       Done = N \/
       exists l1, SendCommand " " SendCommand_default_Timeout_Ms l
                  = Ok false l1) /\
      (Done < Done' ->
       exists l1, SendCommand " " SendCommand_default_Timeout_Ms l
                  = Ok true l1) /\
      now l <= now l'.
Proof.
  induction fuel as [|fuel IH]; intros N Done TP l Hd HD HN HTP Hf.
  { cbn in Hf. lia. }
  cbn [DetectPing_Ms_loop].
  destruct (Z.ltb_spec Done N) as [Hlt|Hge].
  2:{ exists TP, Done, l. unfold ret.
      repeat split; try reflexivity; try lia; try (intros _; left; lia). }
  destruct (SendCommand_Time_Ms_spec " " l Hd)
    as (v & l1 & Hs & Ht & Hb & Htpc & Hco).
  unfold bind at 1. rewrite Ht. destruct v; cbn [negb].
  - assert (Hu8 : u8 (Done + 1) = Done + 1)
      by (unfold u8; apply Z.mod_small; lia).
    assert (Hu32 : u32 (TP + (now l1 - now l)) = TP + (now l1 - now l))
      by (apply u32_small; lia).
    rewrite Hu8, Hu32.
    destruct (IH N (Done + 1) (TP + (now l1 - now l)) l1)
      as (TP' & Done' & l' & Hl & HD' & HTP' & Htpc' & Hco' & _ & _ & Hnow');
      try lia.
    exists TP', Done', l'. split; [exact Hl|].
    repeat split; try lia; try congruence.
    intros _. exists l1. exact Hs.
  - exists TP, Done, l1. unfold ret.
    repeat split; try reflexivity; try lia; try assumption;
      try (intros _; right; exists l1; exact Hs).
Qed.

(** X12: [DetectPing_Ms] for up to 255 measurements.  It divides by zero
    exactly when no probe was completed: when asked for 0 measurements or
    when the first probe fails.  Otherwise it returns the average over the
    probes completed before the first failure, which is at most 9765 ms, so
    nothing is lost in the [uint16_t]. *)
Theorem DetectPing_Ms_average_or_division_by_zero :
  forall (NumMeasurements : Z) (l : Line),
    1 <= TimePerCharacter_Ms l <= 255 ->
    0 <= NumMeasurements <= 255 ->
    ((NumMeasurements = 0 \/
      exists l1, SendCommand " " SendCommand_default_Timeout_Ms l
                 = Ok false l1) /\
     DetectPing_Ms NumMeasurements l = Crash DivisionByZero)
    \/
    (exists (TimePassed_Ms NumMeasurementsDone : Z) (l' l1 : Line),
       SendCommand " " SendCommand_default_Timeout_Ms l = Ok true l1 /\
       DetectPing_Ms_loop (S (Z.to_nat NumMeasurements)) NumMeasurements 0 0 l
       = Ok (TimePassed_Ms, NumMeasurementsDone) l' /\
       1 <= NumMeasurementsDone <= NumMeasurements /\
       DetectPing_Ms NumMeasurements l
       = Ok (TimePassed_Ms / NumMeasurementsDone) l' /\
       0 <= TimePassed_Ms / NumMeasurementsDone <= 9765).
Proof.
  intros N l Hd HN.
  destruct (DetectPing_Ms_loop_spec (S (Z.to_nat N)) N 0 0 l)
    as (TP & Done & l' & Hl & HD & HTP & _ & _ & Hstop & Hfirst & _);
    try lia.
  destruct (Z.eq_dec Done 0) as [Hz|Hnz].
  - left. subst Done. split.
    + destruct (Hstop eq_refl) as [H0|Hfail]; [left; lia|right; exact Hfail].
    + unfold DetectPing_Ms, bind. rewrite Hl. reflexivity.
  - right. destruct (Hfirst ltac:(lia)) as [l1 Hl1].
    exists TP, Done, l', l1. split; [exact Hl1|].
    split; [exact Hl|]. split; [lia|].
    assert (Hq : 0 <= TP / Done <= 9765).
    { split; [apply Z.div_pos; lia|].
      apply Z.div_le_upper_bound; lia. }
    split; [|exact Hq].
    unfold DetectPing_Ms, bind. rewrite Hl.
    replace (Done =? 0) with false by (symmetry; apply Z.eqb_neq; exact Hnz).
    unfold ret, u16. rewrite Z.mod_small by lia. reflexivity.
Qed.

Lemma DetectPing_Ms_average_or_division_by_zero_witness :
  ((5 = 0 \/
    exists l1, SendCommand " " SendCommand_default_Timeout_Ms
                 (mkLine 0 [(3, newline); (5, letter_G); (9, newline)]
                         "" "" 2)
               = Ok false l1) /\
   DetectPing_Ms 5
     (mkLine 0 [(3, newline); (5, letter_G); (9, newline)] "" "" 2)
   = Crash DivisionByZero)
  \/
  (exists (TimePassed_Ms NumMeasurementsDone : Z) (l' l1 : Line),
     SendCommand " " SendCommand_default_Timeout_Ms
       (mkLine 0 [(3, newline); (5, letter_G); (9, newline)] "" "" 2)
     = Ok true l1 /\
     DetectPing_Ms_loop (S (Z.to_nat 5)) 5 0 0
       (mkLine 0 [(3, newline); (5, letter_G); (9, newline)] "" "" 2)
     = Ok (TimePassed_Ms, NumMeasurementsDone) l' /\
     1 <= NumMeasurementsDone <= 5 /\
     DetectPing_Ms 5
       (mkLine 0 [(3, newline); (5, letter_G); (9, newline)] "" "" 2)
     = Ok (TimePassed_Ms / NumMeasurementsDone) l' /\
     0 <= TimePassed_Ms / NumMeasurementsDone <= 9765).
Proof.
  apply (DetectPing_Ms_average_or_division_by_zero 5
           (mkLine 0 [(3, newline); (5, letter_G); (9, newline)] "" "" 2)).
  - cbn. lia.
  - lia.
Defined.

Lemma string_append_assoc (a b c : string) :
  ((a ++ b) ++ c)%string = (a ++ (b ++ c))%string.
Proof.
  induction a as [|x a IH]; cbn; [reflexivity|]. rewrite IH. reflexivity.
Qed.

Lemma string_length_append (a b : string) :
  String.length (a ++ b) = (String.length a + String.length b)%nat.
Proof.
  induction a as [|x a IH]; cbn; [reflexivity|]. rewrite IH. reflexivity.
Qed.

Lemma substring_whole (s : string) :
  forall n : nat, (String.length s <= n)%nat -> substring 0 n s = s.
Proof.
  induction s as [|x s IH]; intros n Hn.
  - destruct n; reflexivity.
  - destruct n as [|n]; [cbn in Hn; lia|].
    cbn [substring]. rewrite IH; [reflexivity|]. cbn in Hn. lia.
Qed.

Lemma send_powers_returns (MotorPower_Pc : Z -> Z) (angles : list Z) :
  forall l : Line,
    1 <= TimePerCharacter_Ms l <= 255 ->
    exists l' : Line,
      send_powers MotorPower_Pc angles l = Ok tt l' /\
      TimePerCharacter_Ms l' = TimePerCharacter_Ms l /\
      console l' = console l /\
      now l <= now l' /\
      now l' - now l
      <= Z.of_nat (List.length angles)
         * (8999 + 3 * TimePerCharacter_Ms l).
Proof.
  induction angles as [|Angle rest IH]; intros l Hd.
  - exists l. cbn. repeat split; try reflexivity; lia.
  - cbn [send_powers]. unfold bind at 1.
    destruct (SendCommand_spec
                (GenerateCommand (MotorPower_Pc Angle) (MotorPower_Pc Angle)
                                 CommandDuration_Ms)
                SendCommand_default_Timeout_Ms l Hd)
      as (v & l1 & Hl1 & Htpc1 & Hco1 & Hnow1 & Hup1 & _);
      [unfold SendCommand_default_Timeout_Ms; lia|].
    change Motorboard_PrintHelpMaxTime_Ms with 4000 in Hup1.
    change SendCommand_default_Timeout_Ms with 5000 in Hup1.
    rewrite Hl1.
    destruct (IH l1) as (l' & Hl' & Htpc' & Hco' & Hnow' & Hup');
      [rewrite Htpc1; exact Hd|].
    rewrite Htpc1 in *.
    exists l'. split; [exact Hl'|].
    repeat split; try congruence; try lia.
    cbn [List.length]. rewrite Nat2Z.inj_succ. lia.
Qed.

(** X13: the self-test always comes to an end, whatever the board does and
    whatever the powers are: it returns after its thirteen commands, in
    less than 13 times (9000 ms plus three per-character delays), having
    printed "Motors test.. " and "done." on the console. *)
Theorem HardwareMotorsTest_comes_to_an_end :
  forall (MotorPower_Pc : Z -> Z) (l : Line),
    1 <= TimePerCharacter_Ms l <= 255 ->
    exists l' : Line,
      HardwareMotorsTest MotorPower_Pc l = Ok tt l' /\
      now l <= now l' /\
      now l' - now l < 13 * (9000 + 3 * TimePerCharacter_Ms l) /\
      console l'
      = (console l ++ "Motors test.. " ++ "done."
         ++ String "013"%char (String "010"%char EmptyString))%string /\
      TimePerCharacter_Ms l' = TimePerCharacter_Ms l.
Proof.
  intros P l Hd.
  assert (Hsweep : HardwareMotorsTest P l
                   = (print "Motors test.. " ;;;
                      send_powers P test_angles ;;;
                      print ("done." ++ String "013"%char
                                          (String "010"%char EmptyString))) l)
    by reflexivity.
  rewrite Hsweep. unfold bind, print at 1.
  destruct (send_powers_returns P test_angles
              (mkLine (now l) (rx l) (tx l) (console l ++ "Motors test.. ")
                      (TimePerCharacter_Ms l)))
    as (l1 & Hl1 & Htpc1 & Hco1 & Hnow1 & Hup1); [exact Hd|].
  rewrite Hl1. cbn [now console TimePerCharacter_Ms] in *.
  eexists. split; [reflexivity|]. cbn [now console TimePerCharacter_Ms].
  change (Z.of_nat (List.length test_angles)) with 13 in Hup1.
  repeat split; try lia; try assumption.
  rewrite Hco1. rewrite string_append_assoc. reflexivity.
Qed.

Lemma HardwareMotorsTest_comes_to_an_end_witness :
  exists l' : Line,
    HardwareMotorsTest (fun Angle => Angle / 4)
      (mkLine 0 [(3, newline); (5, letter_G); (9, newline)] "" "" 200)
    = Ok tt l' /\
    0 <= now l' /\
    now l' - 0 < 13 * (9000 + 3 * 200) /\
    console l'
    = ("" ++ "Motors test.. " ++ "done."
       ++ String "013"%char (String "010"%char EmptyString))%string /\
    TimePerCharacter_Ms l' = 200.
Proof.
  apply (HardwareMotorsTest_comes_to_an_end (fun Angle => Angle / 4)
           (mkLine 0 [(3, newline); (5, letter_G); (9, newline)] "" "" 200)).
  cbn. lia.
Defined.

Lemma all_from_spec (f : Z -> bool) (n : nat) :
  forall z : Z,
    all_from n z f = true ->
    forall k : Z, z <= k < z + Z.of_nat n -> f k = true.
Proof.
  induction n as [|n IH]; intros z H k Hk.
  - cbn in Hk. lia.
  - cbn [all_from] in H. apply andb_prop in H. destruct H as [Hz Hrest].
    destruct (Z.eq_dec k z) as [->|Hne]; [exact Hz|].
    apply (IH (z + 1) Hrest). lia.
Qed.

Lemma decimal_int8 (n : Z) :
  -128 <= n <= 127 -> (String.length (decimal n) <= 4)%nat.
Proof.
  intros Hn.
  assert (Hall : all_from 256 (-128)
                   (fun k => Nat.leb (String.length (decimal k)) 4) = true)
    by (vm_compute; reflexivity).
  apply Nat.leb_le. apply (all_from_spec _ _ _ Hall n). lia.
Qed.

Lemma decimal_uint16 (n : Z) :
  0 <= n <= 65535 -> (String.length (decimal n) <= 5)%nat.
Proof.
  intros Hn.
  assert (Hall : all_from (Z.to_nat 65536) 0
                   (fun k => Nat.leb (String.length (decimal k)) 5) = true)
    by (vm_compute; reflexivity).
  apply Nat.leb_le. apply (all_from_spec _ _ _ Hall n).
  rewrite Z2Nat.id by lia. lia.
Qed.

(** X14: the 32 bytes of [GenerateCommand] are never too few: for powers
    that fit [int8_t] and a duration that fits [uint16_t] the command is
    the whole text "L <left> R <right> D <duration> ", nothing cut off, at
    most 22 characters long. *)
Theorem GenerateCommand_is_never_cut :
  forall LeftMotor_Pc RightMotor_Pc Duration_Ms : Z,
    -128 <= LeftMotor_Pc <= 127 ->
    -128 <= RightMotor_Pc <= 127 ->
    0 <= Duration_Ms <= 65535 ->
    GenerateCommand LeftMotor_Pc RightMotor_Pc Duration_Ms
    = ("L " ++ decimal LeftMotor_Pc ++ " R " ++ decimal RightMotor_Pc
       ++ " D " ++ decimal Duration_Ms ++ " ")%string /\
    (String.length (GenerateCommand LeftMotor_Pc RightMotor_Pc Duration_Ms)
     <= 22)%nat.
Proof.
  intros L R D HL HR HD.
  pose proof (decimal_int8 L HL) as H1.
  pose proof (decimal_int8 R HR) as H2.
  pose proof (decimal_uint16 D HD) as H3.
  assert (Hlen : (String.length
                    ("L " ++ decimal L ++ " R " ++ decimal R
                     ++ " D " ++ decimal D ++ " ")%string <= 22)%nat).
  { repeat rewrite string_length_append. cbn [String.length]. lia. }
  assert (Heq : GenerateCommand L R D
                = ("L " ++ decimal L ++ " R " ++ decimal R
                   ++ " D " ++ decimal D ++ " ")%string).
  { unfold GenerateCommand. apply substring_whole. cbn [Nat.sub]. lia. }
  split; [exact Heq|]. rewrite Heq. exact Hlen.
Qed.

Lemma GenerateCommand_is_never_cut_witness :
  GenerateCommand (-128) (-128) 65535
  = ("L " ++ decimal (-128) ++ " R " ++ decimal (-128)
     ++ " D " ++ decimal 65535 ++ " ")%string /\
  (String.length (GenerateCommand (-128) (-128) 65535) <= 22)%nat.
Proof.
  apply (GenerateCommand_is_never_cut (-128) (-128) 65535); lia.
Defined.

Lemma TestConnection_spec (l : Line) :
  1 <= TimePerCharacter_Ms l <= 255 ->
  exists (v : bool) (l' : Line),
    TestConnection l = Ok v l' /\
    TimePerCharacter_Ms l' = TimePerCharacter_Ms l /\
    console l' = console l /\
    now l <= now l' /\
    now l' - now l < 5540.
Proof.
  intros Hd. unfold TestConnection, bind, get_TimePerCharacter_Ms.
  assert (Hu : u16 (3 * TimePerCharacter_Ms l + 10)
               = 3 * TimePerCharacter_Ms l + 10)
    by (unfold u16; apply Z.mod_small; lia).
  rewrite Hu.
  destruct (SendCommand_spec " " (3 * TimePerCharacter_Ms l + 10) l Hd)
    as (v & l' & Hl & Htpc & Hco & Hnow & Hup & _); [lia|].
  change Motorboard_PrintHelpMaxTime_Ms with 4000 in Hup.
  exists v, l'. repeat split; try assumption; lia.
Qed.

(** The [while] of [SetupMotorboardCommunication] comes to an end, and
    gives up only after 40000 ms. *)
Lemma connect_loop_spec (fuel : nat) :
  forall (t0 : Z) (l : Line),
    1 <= TimePerCharacter_Ms l <= 255 ->
    0 <= now l - t0 < 45550 ->
    Z.max 0 (40000 - (now l - t0)) + 20 <= 10 * Z.of_nat fuel ->
    exists (v : bool) (l' : Line),
      connect_loop fuel (u32 t0) false l = Ok v l' /\
      TimePerCharacter_Ms l' = TimePerCharacter_Ms l /\
      console l' = console l /\
      now l <= now l' /\
      now l' - t0 < 45550 /\
      (v = false -> 40000 <= now l' - t0).
Proof.
  induction fuel as [|fuel IH]; intros t0 l Hd He Hf.
  { cbn in Hf. lia. }
  cbn [connect_loop negb].
  unfold bind at 1. unfold GetTimePassed_Ms, millis, ret, bind at 1.
  cbn [Z.eqb]. rewrite elapsed_exact by lia.
  change (Motorboard_PrintHelpMaxTime_Ms * 10) with 40000.
  destruct (Z.ltb_spec (now l - t0) 40000) as [Hlt|Hge].
  2:{ exists false, l. repeat split; try reflexivity; lia. }
  unfold bind, Motors.delay.
  destruct (TestConnection_spec (advance 10 l))
    as (v1 & l1 & Hl1 & Htpc1 & Hco1 & Hnow1 & Hup1); [exact Hd|].
  cbn [advance now console TimePerCharacter_Ms] in Htpc1, Hco1, Hnow1, Hup1.
  rewrite Hl1. destruct v1.
  - destruct fuel as [|fuel']; [cbn in Hf; lia|].
    cbn [connect_loop negb]. unfold ret.
    exists true, l1.
    repeat split; try assumption; try lia; try (intros Hc; discriminate Hc).
  - destruct (IH t0 l1) as (v & l' & Hl & Htpc & Hco & Hnow & Hup & Hv);
      [rewrite Htpc1; exact Hd|lia|lia|].
    exists v, l'. split; [exact Hl|].
    repeat split; try congruence; try lia; try exact Hv.
Qed.

Lemma DetectPing_Ms_outcome (NumMeasurements : Z) (l : Line) :
  1 <= TimePerCharacter_Ms l <= 255 -> 0 <= NumMeasurements <= 255 ->
  DetectPing_Ms NumMeasurements l = Crash DivisionByZero \/
  exists (ping : Z) (l' : Line),
    DetectPing_Ms NumMeasurements l = Ok ping l' /\
    TimePerCharacter_Ms l' = TimePerCharacter_Ms l /\
    now l <= now l'.
Proof.
  intros Hd HN.
  destruct (DetectPing_Ms_loop_spec (S (Z.to_nat NumMeasurements))
              NumMeasurements 0 0 l)
    as (TP & Done & l' & Hl & _ & _ & Htpc & _ & _ & _ & Hnow); try lia.
  unfold DetectPing_Ms, bind. rewrite Hl.
  destruct (Done =? 0); [left; reflexivity|].
  right. eexists. eexists. split; [reflexivity|]. split; assumption.
Qed.

(** X15: [SetupMotorboardCommunication] comes to an end.  When the serial
    port does not start it returns false and leaves the line and the clock
    alone.  Below 10 baud it divides by zero.  Otherwise it sets the
    per-character delay from the baud rate and either returns, keeping that
    delay, or divides by zero in the ping measurement; it returns false
    only after trying to connect for at least 40000 ms. *)
Theorem SetupMotorboardCommunication_comes_to_an_end :
  forall (Baud : Z) (l : Line),
    0 <= Baud < 2 ^ 32 ->
    (exists l0,
       SetupMotorboardCommunication false Baud l = Ok false l0 /\
       tx l0 = tx l /\ rx l0 = rx l /\ now l0 = now l /\
       TimePerCharacter_Ms l0 = TimePerCharacter_Ms l) /\
    (Baud < 10 ->
     SetupMotorboardCommunication true Baud l = Crash DivisionByZero) /\
    (10 <= Baud ->
     exists d,
       TimePerCharacter_for Baud = Some d /\ 1 <= d <= 255 /\
       (SetupMotorboardCommunication true Baud l = Crash DivisionByZero \/
        exists (v : bool) (l' : Line),
          SetupMotorboardCommunication true Baud l = Ok v l' /\
          TimePerCharacter_Ms l' = d /\
          now l <= now l' /\
          (v = false -> 40000 <= now l' - now l))).
Proof.
  intros Baud l HB.
  destruct (TimePerCharacter_for_cases Baud HB) as [Hlow Hhigh].
  split; [|split].
  - eexists. split; [reflexivity|]. cbn. auto.
  - intros Hlt. unfold SetupMotorboardCommunication, bind, print.
    cbn [negb]. rewrite (Hlow Hlt). reflexivity.
  - intros Hge. destruct (Hhigh Hge) as (d & Hsome & Hd & _).
    exists d. split; [exact Hsome|]. split; [exact Hd|].
    unfold SetupMotorboardCommunication, bind, print, println,
      set_TimePerCharacter_Ms, ret.
    cbn [negb]. rewrite Hsome. cbn beta iota.
    cbn [now rx tx console TimePerCharacter_Ms].
    set (l1 := mkLine (now l) (rx l) (tx l)
                 (console l ++ "Motorboard initialization... ") d).
    destruct (TestConnection_spec l1)
      as (v1 & l2 & Hl2 & Htpc2 & _ & Hnow2 & _); [exact Hd|].
    cbn [l1 now TimePerCharacter_Ms] in Htpc2, Hnow2.
    rewrite Hl2. cbn beta iota.
    assert (Hping : forall l3 : Line,
              TimePerCharacter_Ms l3 = d -> now l <= now l3 ->
              match println "yep." l3 with
              | Ok _ l4 =>
                  match
                    match print "Measuring motorboard ping: " l4 with
                    | Ok _ l5 =>
                        match
                          DetectPing_Ms
                            DetectPing_Ms_default_NumMeasurements l5
                        with
                        | Ok PingValue_Ms l6 =>
                            print (decimal PingValue_Ms ++ " ms"
                                   ++ String "010"%char EmptyString) l6
                        | Crash f => Crash f
                        end
                    | Crash f => Crash f
                    end
                  with
                  | Ok _ l7 => Ok true l7
                  | Crash f => Crash f
                  end
              | Crash f => Crash f
              end = Crash DivisionByZero \/
              exists (v : bool) (l' : Line),
                match println "yep." l3 with
                | Ok _ l4 =>
                    match
                      match print "Measuring motorboard ping: " l4 with
                      | Ok _ l5 =>
                          match
                            DetectPing_Ms
                              DetectPing_Ms_default_NumMeasurements l5
                          with
                          | Ok PingValue_Ms l6 =>
                              print (decimal PingValue_Ms ++ " ms"
                                     ++ String "010"%char EmptyString) l6
                          | Crash f => Crash f
                          end
                      | Crash f => Crash f
                      end
                    with
                    | Ok _ l7 => Ok true l7
                    | Crash f => Crash f
                    end
                | Crash f => Crash f
                end = Ok v l' /\
                TimePerCharacter_Ms l' = d /\ now l <= now l' /\
                (v = false -> 40000 <= now l' - now l)).
    { intros l3 Htpc3 Hnow3. unfold println, print. cbn beta iota.
      set (l4 := mkLine _ _ _ _ _).
      destruct (DetectPing_Ms_outcome DetectPing_Ms_default_NumMeasurements
                  l4)
        as [Hcrash|(ping & l5 & Hl5 & Htpc5 & Hnow5)];
        [cbn [l4 TimePerCharacter_Ms]; lia
        |unfold DetectPing_Ms_default_NumMeasurements; lia| |].
      - left. rewrite Hcrash. reflexivity.
      - right. rewrite Hl5.
        eexists. eexists. split; [reflexivity|].
        cbn [now TimePerCharacter_Ms].
        cbn [l4 now TimePerCharacter_Ms] in Htpc5, Hnow5.
        split; [congruence|].
        split; [lia|intros Hc; discriminate Hc]. }
    destruct v1; cbn [negb]; cbn beta iota.
    + apply Hping; assumption.
    + unfold millis. cbn beta iota.
      destruct (connect_loop_spec
                  (S (Z.to_nat (Motorboard_PrintHelpMaxTime_Ms * 10)))
                  (now l2) l2)
        as (v & l3 & Hl3 & Htpc3 & _ & Hnow3 & _ & Hv);
        [rewrite Htpc2; exact Hd|lia|
         change (Motorboard_PrintHelpMaxTime_Ms * 10) with 40000; lia|].
      rewrite Hl3. cbn beta iota. destruct v.
      * apply Hping; [congruence|lia].
      * right. unfold println, print. cbn beta iota.
        eexists. eexists. split; [reflexivity|].
        cbn [now TimePerCharacter_Ms].
        split; [congruence|]. split; [lia|].
        intros _. specialize (Hv eq_refl). lia.
Qed.

Lemma SetupMotorboardCommunication_comes_to_an_end_witness :
  exists d,
    TimePerCharacter_for 57600 = Some d /\ 1 <= d <= 255 /\
    (SetupMotorboardCommunication true 57600 (mkLine 0 [] "" "" 0)
     = Crash DivisionByZero \/
     exists (v : bool) (l' : Line),
       SetupMotorboardCommunication true 57600 (mkLine 0 [] "" "" 0)
       = Ok v l' /\
       TimePerCharacter_Ms l' = d /\
       now (mkLine 0 [] "" "" 0) <= now l' /\
       (v = false -> 40000 <= now l' - now (mkLine 0 [] "" "" 0))).
Proof.
  apply (proj2 (proj2 (SetupMotorboardCommunication_comes_to_an_end 57600
                         (mkLine 0 [] "" "" 0) ltac:(lia)))).
  lia.
Defined.

End MotorsMore.

(** * The humidity measurer *)

Import HumidityMeasurer.

Section HumidityMeasurerFacts.

Lemma s16_small (x : Z) : - 2 ^ 15 <= x < 2 ^ 15 -> s16 x = x.
Proof.
  intros H. unfold s16. rewrite Z.mod_small; lia.
Qed.

Lemma s32_small (x : Z) : - 2 ^ 31 <= x < 2 ^ 31 -> s32 x = x.
Proof.
  intros H. unfold s32. rewrite Z.mod_small; lia.
Qed.

Lemma u16_small (x : Z) : 0 <= x < 2 ^ 16 -> u16 x = x.
Proof.
  intros H. unfold u16. apply Z.mod_small. exact H.
Qed.

Lemma u32_fits (x : Z) : 0 <= x < 2 ^ 32 -> u32 x = x.
Proof.
  intros H. unfold u32. apply Z.mod_small. exact H.
Qed.

(** 3.8f * 1000 rounds to 3800, so the pause between two samples is
    190 ms. *)
Lemma measure_delay_value : measure_delay = 190.
Proof. vm_compute. reflexivity. Qed.

(** The [for] of [get_raw_value]: [n] samples between [lo] and [hi] add
    between [n * lo] and [n * hi] to the sum, and cost [n] reads and
    [n * 190] ms. *)
Lemma measure_spec (lo hi : Z) :
  0 <= lo -> hi < 2 ^ 16 ->
  forall (n : nat) (sum : Z) (b : Board),
    0 <= sum -> sum + Z.of_nat n * hi < 2 ^ 32 ->
    (forall k : nat,
        (reads b <= k < reads b + n)%nat -> lo <= adc b k <= hi) ->
    exists (sum' : Z) (b' : Board),
      measure n sum b = (sum', b') /\
      sum + Z.of_nat n * lo <= sum' <= sum + Z.of_nat n * hi /\
      adc b' = adc b /\ reads b' = (reads b + n)%nat /\
      waited b' = waited b + Z.of_nat n * 190 /\ power b' = power b.
Proof.
  intros Hlo Hhi n. induction n as [|n IH]; intros sum b Hs Hfit Hadc.
  - exists sum, b. cbn [measure]. repeat split; lia.
  - cbn [measure]. unfold analogRead, delay.
    rewrite measure_delay_value. cbn beta iota.
    assert (Hk : lo <= adc b (reads b) <= hi) by (apply Hadc; lia).
    rewrite (u16_small (adc b (reads b))) by lia.
    rewrite u32_fits by nia.
    set (b2 := mkBoard _ _ _ _).
    destruct (IH (sum + adc b (reads b)) b2)
      as (sum' & b' & Hm & Hsum & Hadc' & Hreads & Hwait & Hpow).
    + lia.
    + nia.
    + intros k Hk'. cbn [b2 adc reads] in *. apply Hadc. lia.
    + exists sum', b'. split; [exact Hm|].
      cbn [b2 adc reads waited power] in *.
      repeat split; try assumption; try lia; nia.
Qed.

(** What [get_raw_value] does, for samples between [lo] and [hi]. *)
Lemma get_raw_value_spec (lo hi : Z) (m : humidity_measurer) (b : Board) :
  0 <= lo -> hi < 2 ^ 15 ->
  (forall k : nat,
      (reads b <= k < reads b + 20)%nat -> lo <= adc b k <= hi) ->
  exists (r : Z) (b' : Board),
    get_raw_value m b =
      (r,
       mk_humidity_measurer (sensor_pin m) (power_pin m) (min_value m)
         (max_value m) (power_off_between_measures m) (high_means_dry m)
         (r <=? 10),
       b') /\
    lo <= r <= hi /\
    adc b' = adc b /\ reads b' = (reads b + 20)%nat /\
    waited b' =
      waited b + 3800 + (if power_off_between_measures m then 50 else 0) /\
    power b' =
      (power b ++
       (if power_off_between_measures m then [true; false] else []))%list.
Proof.
  intros Hlo Hhi Hadc. unfold get_raw_value.
  change (Z.to_nat num_measures) with 20%nat.
  set (b0 := if power_off_between_measures m
             then delay pre_measures_delay (digitalWrite true b) else b).
  assert (Hb0 : adc b0 = adc b /\ reads b0 = reads b /\
                waited b0 =
                  waited b
                  + (if power_off_between_measures m then 50 else 0) /\
                power b0 =
                  (power b ++
                   (if power_off_between_measures m then [true] else []))
                  %list).
  { subst b0. destruct (power_off_between_measures m);
      cbn [delay digitalWrite adc reads waited power].
    - repeat split; reflexivity.
    - rewrite app_nil_r. repeat split; lia. }
  destruct Hb0 as (Ha0 & Hr0 & Hw0 & Hp0).
  destruct (measure_spec lo hi Hlo ltac:(lia) 20 0 b0)
    as (sum & b1 & Hm & Hsum & Ha1 & Hr1 & Hw1 & Hp1).
  - lia.
  - lia.
  - intros k Hk. rewrite Ha0. apply Hadc. lia.
  - rewrite Hm. cbn beta iota.
    unfold num_measures, line_problem_threshold.
    assert (Hq : lo <= sum / 20 <= hi).
    { split.
      - apply Z.div_le_lower_bound; lia.
      - apply Z.div_le_upper_bound; lia. }
    rewrite (u16_small (sum / 20)) by lia.
    rewrite (s16_small (sum / 20)) by lia.
    eexists. eexists. split; [reflexivity|].
    split; [exact Hq|].
    destruct (power_off_between_measures m);
      cbn [digitalWrite adc reads waited power].
    + rewrite Hp1, Hp0, <- app_assoc. cbn [app].
      repeat split; try congruence; lia.
    + rewrite Hp1, Hp0.
      repeat split; try congruence; lia.
Qed.

(** [get_raw_value] in terms of what its [for] returns. *)
Lemma get_raw_value_unfold (m : humidity_measurer) (b : Board) :
  get_raw_value m b =
    (s16 (u16 (fst (measure 20 0
                      (if power_off_between_measures m
                       then delay pre_measures_delay (digitalWrite true b)
                       else b)) / 20)),
     mk_humidity_measurer (sensor_pin m) (power_pin m) (min_value m)
       (max_value m) (power_off_between_measures m) (high_means_dry m)
       (u16 (fst (measure 20 0
                    (if power_off_between_measures m
                     then delay pre_measures_delay (digitalWrite true b)
                     else b)) / 20) <=? 10),
     if power_off_between_measures m
     then digitalWrite false
            (snd (measure 20 0
                    (if power_off_between_measures m
                     then delay pre_measures_delay (digitalWrite true b)
                     else b)))
     else snd (measure 20 0
                 (if power_off_between_measures m
                  then delay pre_measures_delay (digitalWrite true b)
                  else b))).
Proof.
  unfold get_raw_value.
  change (Z.to_nat num_measures) with 20%nat.
  generalize (measure 20 0
                (if power_off_between_measures m
                 then delay pre_measures_delay (digitalWrite true b)
                 else b)).
  intros [sum bm]. reflexivity.
Qed.

(** X16: [get_raw_value] returns a value between the smallest and the
    largest of its twenty samples, and sets [is_line_problem] exactly
    when that value is 10 or less; nothing else of the object changes. *)
Theorem get_raw_value_is_within_the_samples :
  forall (lo hi : Z) (m : humidity_measurer) (b : Board),
    0 <= lo -> hi < 2 ^ 15 ->
    (forall k : nat,
        (reads b <= k < reads b + 20)%nat -> lo <= adc b k <= hi) ->
    exists (r : Z) (m' : humidity_measurer) (b' : Board),
      get_raw_value m b = (r, m', b') /\
      lo <= r <= hi /\
      is_line_problem m' = (r <=? 10) /\
      sensor_pin m' = sensor_pin m /\ power_pin m' = power_pin m /\
      min_value m' = min_value m /\ max_value m' = max_value m /\
      power_off_between_measures m' = power_off_between_measures m /\
      high_means_dry m' = high_means_dry m.
Proof.
  intros lo hi m b Hlo Hhi Hadc.
  destruct (get_raw_value_spec lo hi m b Hlo Hhi Hadc)
    as (r & b' & Hg & Hr & _).
  exists r. eexists. exists b'. split; [exact Hg|].
  split; [exact Hr|]. cbn. repeat split; reflexivity.
Qed.

Lemma get_raw_value_is_within_the_samples_witness :
  exists (r : Z) (m' : humidity_measurer) (b' : Board),
    get_raw_value (constructed 14) (mkBoard (fun _ => 500) 0 0 []) =
      (r, m', b') /\
    500 <= r <= 500 /\
    is_line_problem m' = (r <=? 10) /\
    sensor_pin m' = sensor_pin (constructed 14) /\
    power_pin m' = power_pin (constructed 14) /\
    min_value m' = min_value (constructed 14) /\
    max_value m' = max_value (constructed 14) /\
    power_off_between_measures m' =
      power_off_between_measures (constructed 14) /\
    high_means_dry m' = high_means_dry (constructed 14).
Proof.
  apply (get_raw_value_is_within_the_samples 500 500 (constructed 14)
           (mkBoard (fun _ => 500) 0 0 [])).
  - lia.
  - lia.
  - intros k _. cbn. lia.
Defined.



(** [constrain] keeps its result between the bounds. *)
Lemma constrain_range (amt low high : Z) :
  low <= high -> low <= constrain amt low high <= high.
Proof.
  intros H. unfold constrain.
  destruct (Z.ltb_spec amt low); [lia|].
  destruct (Z.ltb_spec high amt); lia.
Qed.

(** [map] from [mn..mx] onto 0..100 and onto 100..0. *)
Lemma map_up (c mn mx : Z) :
  0 <= mn -> mn < mx -> mx < 2 ^ 15 -> mn <= c <= mx ->
  map c mn mx 0 100 = Some ((c - mn) * 100 / (mx - mn)).
Proof.
  intros H0 H1 H2 Hc. unfold map.
  rewrite (s32_small (mx - mn)) by lia.
  destruct (Z.eqb_spec (mx - mn) 0) as [He|_]; [lia|].
  rewrite (s32_small (c - mn)) by lia.
  rewrite (s32_small (100 - 0)) by lia.
  rewrite (s32_small ((c - mn) * (100 - 0))) by nia.
  rewrite Z.quot_div_nonneg by lia.
  assert (Hq : 0 <= (c - mn) * (100 - 0) / (mx - mn) <= 100).
  { split.
    - apply Z.div_pos; nia.
    - apply Z.div_le_upper_bound; nia. }
  rewrite s32_small by lia.
  f_equal. replace (100 - 0) with 100 by lia. lia.
Qed.

Lemma map_down (c mn mx : Z) :
  0 <= mn -> mn < mx -> mx < 2 ^ 15 -> mn <= c <= mx ->
  map c mn mx 100 0 = Some (100 - (c - mn) * 100 / (mx - mn)).
Proof.
  intros H0 H1 H2 Hc. unfold map.
  rewrite (s32_small (mx - mn)) by lia.
  destruct (Z.eqb_spec (mx - mn) 0) as [He|_]; [lia|].
  rewrite (s32_small (c - mn)) by lia.
  rewrite (s32_small (0 - 100)) by lia.
  rewrite (s32_small ((c - mn) * (0 - 100))) by nia.
  replace ((c - mn) * (0 - 100)) with (- ((c - mn) * 100)) by lia.
  rewrite Z.quot_opp_l by lia.
  rewrite Z.quot_div_nonneg by nia.
  assert (Hq : 0 <= (c - mn) * 100 / (mx - mn) <= 100).
  { split.
    - apply Z.div_pos; nia.
    - apply Z.div_le_upper_bound; nia. }
  rewrite s32_small by lia.
  f_equal. lia.
Qed.

(** [constrain] keeps the order of its first argument. *)
Lemma constrain_monotone (x y low high : Z) :
  low <= high -> x <= y -> constrain x low high <= constrain y low high.
Proof.
  intros H Hxy. unfold constrain.
  destruct (Z.ltb_spec x low); destruct (Z.ltb_spec y low);
    destruct (Z.ltb_spec high x); destruct (Z.ltb_spec high y); lia.
Qed.

(** What [get_value] does, for samples between [lo] and [hi] and bounds
    in order: the raw value is clamped and scaled to a percentage. *)
Lemma get_value_spec (lo hi : Z) (m : humidity_measurer) (b : Board) :
  0 <= lo -> hi < 2 ^ 15 ->
  0 <= min_value m -> min_value m < max_value m -> max_value m < 2 ^ 15 ->
  (forall k : nat,
      (reads b <= k < reads b + 20)%nat -> lo <= adc b k <= hi) ->
  exists (r : Z) (m' : humidity_measurer) (b' : Board),
    get_raw_value m b = (r, m', b') /\ lo <= r <= hi /\
    get_value m b =
      Some
        (let p := (constrain r (min_value m) (max_value m) - min_value m)
                  * 100 / (max_value m - min_value m) in
         if high_means_dry m then 100 - p else p,
         m', b') /\
    0 <= (constrain r (min_value m) (max_value m) - min_value m)
         * 100 / (max_value m - min_value m) <= 100.
Proof.
  intros Hlo Hhi Hmn Hlt Hmx Hadc.
  destruct (get_raw_value_spec lo hi m b Hlo Hhi Hadc)
    as (r & b' & Hg & Hr & _).
  exists r. eexists. exists b'. split; [exact Hg|]. split; [exact Hr|].
  unfold get_value. rewrite Hg.
  cbn [min_value max_value high_means_dry].
  pose proof (constrain_range r (min_value m) (max_value m)
                ltac:(lia)) as Hc.
  set (c := constrain r (min_value m) (max_value m)) in *.
  assert (Hp : 0 <= (c - min_value m) * 100
                    / (max_value m - min_value m) <= 100).
  { split.
    - apply Z.div_pos; nia.
    - apply Z.div_le_upper_bound; nia. }
  split; [|exact Hp].
  destruct (high_means_dry m).
  - rewrite (map_down c (min_value m) (max_value m)) by lia.
    rewrite s16_small by lia. reflexivity.
  - rewrite (map_up c (min_value m) (max_value m)) by lia.
    rewrite s16_small by lia. reflexivity.
Qed.

(** X18: with the bounds in order, [get_value] returns a percentage: a
    value from 0 to 100, which is 0 when no sample exceeds [min_value]
    and 100 when none is below [max_value]; [high_means_dry] swaps the
    two ends. *)
Theorem get_value_is_a_percentage :
  forall (lo hi : Z) (m : humidity_measurer) (b : Board),
    0 <= lo -> hi < 2 ^ 15 ->
    0 <= min_value m -> min_value m < max_value m ->
    max_value m < 2 ^ 15 ->
    (forall k : nat,
        (reads b <= k < reads b + 20)%nat -> lo <= adc b k <= hi) ->
    exists (v : Z) (m' : humidity_measurer) (b' : Board),
      get_value m b = Some (v, m', b') /\
      0 <= v <= 100 /\
      (hi <= min_value m -> v = if high_means_dry m then 100 else 0) /\
      (max_value m <= lo -> v = if high_means_dry m then 0 else 100).
Proof.
  intros lo hi m b Hlo Hhi Hmn Hlt Hmx Hadc.
  destruct (get_value_spec lo hi m b Hlo Hhi Hmn Hlt Hmx Hadc)
    as (r & m' & b' & _ & Hr & Hv & Hp).
  eexists. exists m', b'. split; [exact Hv|].
  cbn zeta.
  set (p := (constrain r (min_value m) (max_value m) - min_value m)
            * 100 / (max_value m - min_value m)) in *.
  split; [destruct (high_means_dry m); lia|].
  split.
  - intros Hdry.
    assert (Hz : p = 0).
    { subst p. unfold constrain.
      destruct (Z.ltb_spec r (min_value m)).
      - rewrite Z.sub_diag. reflexivity.
      - destruct (Z.ltb_spec (max_value m) r); [lia|].
        replace r with (min_value m) by lia.
        rewrite Z.sub_diag. reflexivity. }
    rewrite Hz. destruct (high_means_dry m); reflexivity.
  - intros Hwet.
    assert (Hz : p = 100).
    { subst p.
      assert (Hc : constrain r (min_value m) (max_value m) = max_value m).
      { unfold constrain.
        destruct (Z.ltb_spec r (min_value m)); [lia|].
        destruct (Z.ltb_spec (max_value m) r); lia. }
      rewrite Hc, Z.mul_comm. apply Z.div_mul. lia. }
    rewrite Hz. destruct (high_means_dry m); reflexivity.
Qed.

Lemma get_value_is_a_percentage_witness :
  exists (v : Z) (m' : humidity_measurer) (b' : Board),
    get_value (constructed 14) (mkBoard (fun _ => 700) 0 0 []) =
      Some (v, m', b') /\
    0 <= v <= 100 /\
    (700 <= min_value (constructed 14) ->
     v = if high_means_dry (constructed 14) then 100 else 0) /\
    (max_value (constructed 14) <= 700 ->
     v = if high_means_dry (constructed 14) then 0 else 100).
Proof.
  apply (get_value_is_a_percentage 700 700 (constructed 14)
           (mkBoard (fun _ => 700) 0 0 [])).
  - lia.
  - lia.
  - cbn. lia.
  - cbn. lia.
  - cbn. lia.
  - intros k _. cbn. lia.
Defined.

(** X19: the two polarities are complements: on the same samples the
    value with [high_means_dry] and the value without it add up to
    100. *)
Theorem get_value_polarities_add_up_to_100 :
  forall (lo hi sp pp mn mx : Z) (pob lp1 lp2 : bool) (b : Board),
    0 <= lo -> hi < 2 ^ 15 ->
    0 <= mn -> mn < mx -> mx < 2 ^ 15 ->
    (forall k : nat,
        (reads b <= k < reads b + 20)%nat -> lo <= adc b k <= hi) ->
    exists (v1 v2 : Z) (m1 m2 : humidity_measurer) (b' : Board),
      get_value (mk_humidity_measurer sp pp mn mx pob true lp1) b =
        Some (v1, m1, b') /\
      get_value (mk_humidity_measurer sp pp mn mx pob false lp2) b =
        Some (v2, m2, b') /\
      v1 + v2 = 100.
Proof.
  intros lo hi sp pp mn mx pob lp1 lp2 b Hlo Hhi Hmn Hlt Hmx Hadc.
  destruct (get_value_spec lo hi
              (mk_humidity_measurer sp pp mn mx pob true lp1) b
              Hlo Hhi Hmn Hlt Hmx Hadc)
    as (r1 & m1 & b1 & Hg1 & _ & Hv1 & _).
  destruct (get_value_spec lo hi
              (mk_humidity_measurer sp pp mn mx pob false lp2) b
              Hlo Hhi Hmn Hlt Hmx Hadc)
    as (r2 & m2 & b2 & Hg2 & _ & Hv2 & _).
  cbn [min_value max_value high_means_dry] in Hv1, Hv2.
  assert (Hsame : r1 = r2 /\ b1 = b2).
  { rewrite get_raw_value_unfold in Hg1, Hg2.
    cbn [power_off_between_measures] in Hg1, Hg2.
    split; congruence. }
  destruct Hsame as [<- <-].
  eexists. eexists. exists m1, m2, b1.
  split; [exact Hv1|]. split; [exact Hv2|].
  cbn zeta. lia.
Qed.

Lemma get_value_polarities_add_up_to_100_witness :
  exists (v1 v2 : Z) (m1 m2 : humidity_measurer) (b' : Board),
    get_value (mk_humidity_measurer 14 2 0 680 false true false)
      (mkBoard (fun _ => 500) 0 0 []) = Some (v1, m1, b') /\
    get_value (mk_humidity_measurer 14 2 0 680 false false false)
      (mkBoard (fun _ => 500) 0 0 []) = Some (v2, m2, b') /\
    v1 + v2 = 100.
Proof.
  apply (get_value_polarities_add_up_to_100 500 500 14 2 0 680
           false false false (mkBoard (fun _ => 500) 0 0 [])).
  - lia.
  - lia.
  - lia.
  - lia.
  - lia.
  - intros k _. cbn. lia.
Defined.

(** X20: [get_value] keeps the order of the readings: when every sample
    of one run is at most [c] and every sample of another is at least
    [c], the second value is not below the first, or not above it with
    [high_means_dry]. *)
Theorem get_value_keeps_the_order :
  forall (c : Z) (m : humidity_measurer) (b1 b2 : Board),
    0 <= c < 2 ^ 15 ->
    0 <= min_value m -> min_value m < max_value m ->
    max_value m < 2 ^ 15 ->
    (forall k : nat,
        (reads b1 <= k < reads b1 + 20)%nat -> 0 <= adc b1 k <= c) ->
    (forall k : nat,
        (reads b2 <= k < reads b2 + 20)%nat ->
        c <= adc b2 k < 2 ^ 15) ->
    exists (v1 v2 : Z) (m1 m2 : humidity_measurer) (b1' b2' : Board),
      get_value m b1 = Some (v1, m1, b1') /\
      get_value m b2 = Some (v2, m2, b2') /\
      if high_means_dry m then v2 <= v1 else v1 <= v2.
Proof.
  intros c m b1 b2 Hc Hmn Hlt Hmx Hadc1 Hadc2.
  destruct (get_value_spec 0 c m b1 ltac:(lia) ltac:(lia) Hmn Hlt Hmx
              Hadc1)
    as (r1 & m1 & b1' & _ & Hr1 & Hv1 & _).
  destruct (get_value_spec c (2 ^ 15 - 1) m b2 ltac:(lia) ltac:(lia)
              Hmn Hlt Hmx)
    as (r2 & m2 & b2' & _ & Hr2 & Hv2 & _).
  { intros k Hk. specialize (Hadc2 k Hk). lia. }
  eexists. eexists. exists m1, m2, b1', b2'.
  split; [exact Hv1|]. split; [exact Hv2|].
  cbn zeta.
  pose proof (constrain_monotone r1 r2 (min_value m) (max_value m)
                ltac:(lia) ltac:(lia)) as Hmono.
  assert (Hdiv : (constrain r1 (min_value m) (max_value m) - min_value m)
                 * 100 / (max_value m - min_value m)
                 <= (constrain r2 (min_value m) (max_value m)
                     - min_value m)
                    * 100 / (max_value m - min_value m)).
  { apply Z.div_le_mono; lia. }
  destruct (high_means_dry m); lia.
Qed.

Lemma get_value_keeps_the_order_witness :
  exists (v1 v2 : Z) (m1 m2 : humidity_measurer) (b1' b2' : Board),
    get_value (constructed 14) (mkBoard (fun _ => 200) 0 0 []) =
      Some (v1, m1, b1') /\
    get_value (constructed 14) (mkBoard (fun _ => 400) 0 0 []) =
      Some (v2, m2, b2') /\
    if high_means_dry (constructed 14) then v2 <= v1 else v1 <= v2.
Proof.
  apply (get_value_keeps_the_order 300 (constructed 14)
           (mkBoard (fun _ => 200) 0 0 [])
           (mkBoard (fun _ => 400) 0 0 [])).
  - lia.
  - cbn. lia.
  - cbn. lia.
  - cbn. lia.
  - intros k _. cbn. lia.
  - intros k _. cbn. lia.
Defined.

(** X21: with [min_value] equal to [max_value] the scaling of
    [get_value] divides by zero, whatever the samples are. *)
Theorem get_value_divides_by_zero_on_equal_bounds :
  forall (m : humidity_measurer) (b : Board),
    min_value m = max_value m -> get_value m b = None.
Proof.
  intros m b Heq. unfold get_value.
  rewrite get_raw_value_unfold.
  cbn [min_value max_value high_means_dry].
  unfold map. rewrite Heq, Z.sub_diag.
  change (s32 0 =? 0) with true. cbn iota.
  destruct (high_means_dry m); reflexivity.
Qed.

Lemma get_value_divides_by_zero_on_equal_bounds_witness :
  get_value (mk_humidity_measurer 14 2 680 680 false false false)
    (mkBoard (fun _ => 500) 0 0 []) = None.
Proof.
  apply (get_value_divides_by_zero_on_equal_bounds
           (mk_humidity_measurer 14 2 680 680 false false false)
           (mkBoard (fun _ => 500) 0 0 [])).
  reflexivity.
Defined.

End HumidityMeasurerFacts.
